(** * Scene: video conversion, point-cloud hand-off and overlay state

    A shallow embedding of [src/prototype/src/main/jni/scene.cc]: the
    [Yuv2Rgb] colour conversion, the double-buffered NV21 frame store
    ([OnFrameAvailable] / [ConvertYuvToRGBMat]), the point-cloud store
    ([OnXYZijAvailable]), the camera-mode switch ([SetCameraType]) and the
    GL set-up and per-frame composition ([InitGLContent], [SetupViewPort],
    [Render]).

    Conventions.
    - [uint8_t] values are [Z] in 0..255; sizes and indices ([size_t]) are
      [nat], valid as long as [width * height * 3] fits a machine word.
    - [double] is Rocq's primitive binary64 [float]; a C++ [float] is a
      [float] that has been rounded to binary32 by [double_to_float].
    - Every operation returns the list of externally visible calls it makes
      (log lines, GL calls, draw calls of the collaborator drawables) in
      source order, next to the new state.
    - The two mutexes delimit critical sections.  An operation is modelled
      as it runs when nothing else runs in between; one part runs a frame
      delivery against a conversion, step by step.
    - What the source leaves open is an input of the model, and nothing is
      assumed of it: the byte an out-of-range conversion stores
      ([out_of_range_cast]), the content of freshly allocated image storage
      ([storage]), and what [tango_gl] makes of a transformation matrix
      ([from_matrix]).
    - [DeleteResources] (nine [delete]s of the collaborators) and
      [OnTouchEvent] (its arguments are forwarded to the camera as they
      are) are not modelled: what they do is in the C++ heap and in
      [tango_gl], outside the state of this model. *)

From Stdlib Require Import ZArith Floats Uint63 Lia.
From stdpp Require Import base list strings.

#[local] Set Warnings "-inexact-float".

(** ** Machine arithmetic *)

(** [int] to [double]: exact for every 32-bit integer. *)
Definition Z2double (z : Z) : float :=
  if (z <? 0)%Z then PrimFloat.opp (of_uint63 (Uint63.of_Z (- z)))
  else of_uint63 (Uint63.of_Z z).

(** Truncation toward zero of a finite [double]; [None] for infinities and
    NaN. *)
Definition double_trunc (d : float) : option Z :=
  match Prim2SF d with
  | S754_zero _ => Some 0%Z
  | S754_finite sign m e =>
      let a := Z.shiftl (Z.pos m) e in
      Some (if sign then (- a)%Z else a)
  | S754_infinity _ | S754_nan => None
  end.

(** Rounding of a [double] to the nearest binary32 value (ties to even),
    as a store into a C++ [float] does. *)
Definition double_to_float (d : float) : float :=
  match Prim2SF d with
  | S754_finite sign m e => SF2Prim (binary_round 24 128 sign m e)
  | _ => d
  end.

(** [static_cast<float>] of an [int]. *)
Definition int_to_float (z : Z) : float := double_to_float (Z2double z).

(** Arithmetic on C++ [float]s: the binary64 operation followed by the
    rounding to binary32 (exact for a single [*] or [/] of binary32
    operands). *)
Definition float_div (a b : float) : float := double_to_float (a / b)%float.
Definition float_neg (a : float) : float := PrimFloat.opp a.

Section Platform.

(** The conversion of a [double] to [uint8_t] truncates toward zero; C++
    defines its result only when the truncated value fits 0..255.  What
    the compiled code stores otherwise is the target's choice (the low
    byte of a wider integer conversion, or a saturated value): it is the
    parameter [out_of_range_cast]. *)
Variable out_of_range_cast : float → Z.

Definition double_to_uint8 (d : float) : Z :=
  match double_trunc d with
  | Some z => if ((0 <=? z) && (z <=? 255))%Z then z else out_of_range_cast d
  | None => out_of_range_cast d
  end.

(** ** [Yuv2Rgb] (scene.cc, lines 41-46)

    The three results are returned instead of stored through [r], [g]
    and [b].  [yValue], [uValue - 128] and [vValue - 128] are [int]s
    converted to [double]; the sums are evaluated left to right in
    [double]. *)
Definition Yuv2Rgb (yValue uValue vValue : Z) : Z * Z * Z :=
  let r := double_to_uint8
             (Z2double yValue + 1.370705 * Z2double (vValue - 128))%float in
  let g := double_to_uint8
             (Z2double yValue - 0.698001 * Z2double (vValue - 128)
              - 0.337633 * Z2double (uValue - 128))%float in
  let b := double_to_uint8
             (Z2double yValue + 1.732446 * Z2double (uValue - 128))%float in
  (r, g, b).

End Platform.

(** The cast of a target that converts through a wider integer and keeps
    the low byte (used to run the model on concrete frames). *)
Definition low_byte_cast (d : float) : Z :=
  match double_trunc d with
  | Some z => (z mod 256)%Z
  | None => 0%Z
  end.

(** The cast of a target whose conversion instruction yields an unsigned
    32-bit integer and saturates (a negative value gives 0, a value above
    2^32 - 1 gives 2^32 - 1), the store keeping the low byte: what the
    float-to-unsigned conversions of ARM ([vcvt.u32.f64], [fcvtzu]) do. *)
Definition unsigned_saturating_cast (d : float) : Z :=
  match double_trunc d with
  | Some z => (Z.max 0 (Z.min z (2 ^ 32 - 1)) mod 256)%Z
  | None => 0%Z
  end.

(** The values a [uint8_t] holds. *)
Definition in_byte (z : Z) : bool := ((0 <=? z) && (z <=? 255))%Z.

(** The red and blue values of the formulas of [Yuv2Rgb] in exact decimal
    arithmetic, truncated toward zero. *)
Definition exact_red (y v : Z) : Z :=
  Z.quot (y * 1000000 + 1370705 * (v - 128)) 1000000.

Definition exact_blue (y u : Z) : Z :=
  Z.quot (y * 1000000 + 1732446 * (u - 128)) 1000000.

Definition bytes : list Z := Z.of_nat <$> seq 0 256.

(** The [double] that [Yuv2Rgb] computes for red (or blue) truncates to the
    exact value. *)
Definition red_blue_agree (y c : Z) : bool :=
  match double_trunc (Z2double y + 1.370705 * Z2double (c - 128))%float,
        double_trunc (Z2double y + 1.732446 * Z2double (c - 128))%float with
  | Some r, Some b => (r =? exact_red y c)%Z && (b =? exact_blue y c)%Z
  | _, _ => false
  end.

(** ** Data model *)

(** [cv::Vec3b]: one RGB pixel. *)
Definition Vec3b : Type := Z * Z * Z.

(** [cv::Mat] of type [CV_8UC3]: a dense row-major image.  [at(i, j)] is
    the element [i * cols + j]; OpenCV does not check the indices in a
    release build, here a write outside the storage changes nothing. *)
Record Mat := {
  rows : nat;
  cols : nat;
  pixels : list Vec3b
}.

(** [cv::Mat()]: an empty image. *)
Definition Mat_default : Mat := {| rows := 0; cols := 0; pixels := [] |}.

(** [cv::Mat(rows, cols, CV_8UC3)]: the storage is allocated and not
    initialised.  What it holds is what the allocated block held before,
    pixel [k] of it being [storage k]: an input of the model, of which
    nothing is known. *)
Definition Mat_create (storage : nat → Vec3b) (r c : nat) : Mat :=
  {| rows := r; cols := c; pixels := storage <$> seq 0 (r * c) |}.

Definition Mat_at (m : Mat) (i j : nat) : option Vec3b :=
  pixels m !! (i * cols m + j).

Definition Mat_set (m : Mat) (i j : nat) (x : Vec3b) : Mat :=
  {| rows := rows m; cols := cols m;
     pixels := <[i * cols m + j := x]> (pixels m) |}.

(** A read [v[k]] of a [std::vector<uint8_t>]; the source does not check
    [k].  For frames of even width and height every read of the conversion
    is inside the buffer (shown with the properties of the conversion). *)
Definition read (v : list Z) (k : nat) : Z := default 0%Z (v !! k).

(** [memcpy(&dst[0], src, n)]: defined when both blocks hold [n] bytes. *)
Definition memcpy (dst src : list Z) (n : nat) : option (list Z) :=
  if (n <=? length src) && (n <=? length dst)
  then Some (take n src ++ drop n dst)
  else None.

(** A run of writes [v[k] = x] on a vector, and the value the last write
    to [k] stores, if [k] is written at all. *)
Definition apply_writes {A : Type} (ws : list (nat * A)) (l : list A) : list A :=
  foldl (λ acc w, <[w.1 := w.2]> acc) l ws.

Fixpoint last_write {A : Type} (k : nat) (ws : list (nat * A)) : option A :=
  match ws with
  | [] => None
  | w :: ws' =>
      match last_write k ws' with
      | Some x => Some x
      | None => if decide (w.1 = k) then Some w.2 else None
      end
  end.

(** [for (size_t i = 0; i < n; ++i) body], threading the state. *)
Definition for_loop {S : Type} (n : nat) (body : nat → S → S) (s : S) : S :=
  foldl (λ acc i, body i acc) s (seq 0 n).

(** The writes of one row, and of all rows, of a loop that stores [f i j]
    at [(i, j)] of an image whose rows are [c] pixels apart. *)
Definition row_writes (c : nat) (g : nat → Vec3b) (i w : nat)
  : list (nat * Vec3b) :=
  (λ j, (i * c + j, g j)) <$> seq 0 w.

Definition frame_writes (c : nat) (f : nat → nat → Vec3b) (h w : nat)
  : list (nat * Vec3b) :=
  flat_map (λ i, row_writes c (f i) i w) (seq 0 h).

Definition vec3 : Type := float * float * float.

(** [glm::quat(w, x, y, z)]. *)
Record quat := { qw : float; qx : float; qy : float; qz : float }.

(** [glm::mat4]: four columns of four entries, [m[c][r]]. *)
Definition mat4 : Type := list (list float).

Definition mat4_at (m : mat4) (c r : nat) : float :=
  default 0%float (default [] (m !! c) !! r).

(** [glm::mat4(1.0f)]. *)
Definition mat4_identity : mat4 :=
  [ [1; 0; 0; 0]; [0; 1; 0; 0]; [0; 0; 1; 0]; [0; 0; 0; 1] ]%float.

(** Modelled from the spec: [tango_gl::GestureCamera::CameraType] is declared
    in a header that is not part of the source tree; the spec names the
    first-person mode and the third-person / top-down modes. *)
Inductive CameraType := kFirstPerson | kThirdPerson | kTopDown.

Definition CameraType_eqb (a b : CameraType) : bool :=
  match a, b with
  | kFirstPerson, kFirstPerson | kThirdPerson, kThirdPerson
  | kTopDown, kTopDown => true
  | _, _ => false
  end.

(** The drawables the scene owns.  A parent reference is the name of the
    parent, never the object. *)
Inductive Node :=
  | yuv_node | depth_node | axis_node | frustum_node | trace_node
  | grid_node | cube_node | point_cloud_node.

(** What the scene reads and writes of a [tango_gl] drawable: its transform
    ([SetParent], [SetPosition], [SetRotation], [SetScale],
    [SetTransformationMatrix]), its colour and, for the two textured quads,
    the texture it owns.  [transformation] is the last matrix handed to
    [SetTransformationMatrix].  What that call makes of the position, the
    rotation and the scale of the object is [tango_gl]'s, whose code is not
    part of the source: it is the object's own [from_matrix], of which
    nothing is assumed. *)
Record Drawable := {
  parent : option Node;
  position : vec3;
  rotation : quat;
  scale : vec3;
  transformation : option mat4;
  color : vec3;
  texture_id : Z;
  from_matrix : mat4 → vec3 * quat * vec3 → vec3 * quat * vec3
}.

Definition SetParent (p : option Node) (d : Drawable) : Drawable :=
  {| parent := p; position := position d; rotation := rotation d;
     scale := scale d; transformation := transformation d;
     color := color d; texture_id := texture_id d;
     from_matrix := from_matrix d |}.

Definition SetPosition (p : vec3) (d : Drawable) : Drawable :=
  {| parent := parent d; position := p; rotation := rotation d;
     scale := scale d; transformation := transformation d;
     color := color d; texture_id := texture_id d;
     from_matrix := from_matrix d |}.

Definition SetRotation (q : quat) (d : Drawable) : Drawable :=
  {| parent := parent d; position := position d; rotation := q;
     scale := scale d; transformation := transformation d;
     color := color d; texture_id := texture_id d;
     from_matrix := from_matrix d |}.

Definition SetScale (k : vec3) (d : Drawable) : Drawable :=
  {| parent := parent d; position := position d; rotation := rotation d;
     scale := k; transformation := transformation d;
     color := color d; texture_id := texture_id d;
     from_matrix := from_matrix d |}.

Definition SetTransformationMatrix (m : mat4) (d : Drawable) : Drawable :=
  let placed := from_matrix d m (position d, rotation d, scale d) in
  {| parent := parent d; position := placed.1.1; rotation := placed.1.2;
     scale := placed.2; transformation := Some m;
     color := color d; texture_id := texture_id d;
     from_matrix := from_matrix d |}.

Definition SetColor (c : vec3) (d : Drawable) : Drawable :=
  {| parent := parent d; position := position d; rotation := rotation d;
     scale := scale d; transformation := transformation d;
     color := c; texture_id := texture_id d;
     from_matrix := from_matrix d |}.

(** What the scene sets and reads of the [tango_gl::GestureCamera]. *)
Record GestureCamera := {
  camera_type : CameraType;
  aspect_ratio : float;
  anchor_position : vec3;
  camera_transformation : option mat4
}.

Definition SetCameraType_camera (t : CameraType) (c : GestureCamera)
  : GestureCamera :=
  {| camera_type := t; aspect_ratio := aspect_ratio c;
     anchor_position := anchor_position c;
     camera_transformation := camera_transformation c |}.

Definition SetAspectRatio (r : float) (c : GestureCamera) : GestureCamera :=
  {| camera_type := camera_type c; aspect_ratio := r;
     anchor_position := anchor_position c;
     camera_transformation := camera_transformation c |}.

Definition SetAnchorPosition (p : vec3) (c : GestureCamera) : GestureCamera :=
  {| camera_type := camera_type c; aspect_ratio := aspect_ratio c;
     anchor_position := p;
     camera_transformation := camera_transformation c |}.

Definition SetTransformationMatrix_camera (m : mat4) (c : GestureCamera)
  : GestureCamera :=
  {| camera_type := camera_type c; aspect_ratio := aspect_ratio c;
     anchor_position := anchor_position c;
     camera_transformation := Some m |}.

(** A matrix handed to a draw call: a value of the scene, or the view or
    projection matrix the camera derives from its state at the call. *)
Inductive MatrixArg :=
  | GivenMatrix (m : mat4)
  | GetViewMatrix (c : GestureCamera)
  | GetProjectionMatrix (c : GestureCamera).

Inductive GLenum :=
  | GL_TEXTURE_2D | GL_RGB | GL_DEPTH_COMPONENT
  | GL_UNSIGNED_BYTE | GL_UNSIGNED_SHORT
  | GL_FRAMEBUFFER | GL_READ_FRAMEBUFFER | GL_DRAW_FRAMEBUFFER
  | GL_COLOR_ATTACHMENT0 | GL_DEPTH_ATTACHMENT
  | GL_DEPTH_TEST | GL_BLEND | GL_SRC_ALPHA | GL_ONE_MINUS_SRC_ALPHA
  | GL_DEPTH_BUFFER_BIT | GL_COLOR_BUFFER_BIT | GL_NEAREST.

(** The value [glCheckFramebufferStatus] returns for a complete
    framebuffer (0x8CD5). *)
Definition GL_FRAMEBUFFER_COMPLETE : Z := 36053.

(** The [format] tag of an NV21 frame in the Tango client API (0x11). *)
Definition TANGO_HAL_PIXEL_FORMAT_YCrCb_420_SP : Z := 17.

(** The calls that leave the scene, in the order they are made. *)
Inductive Event :=
  | LOGE (format : string) (args : list Z)
  | glGenTextures (name : Z)
  | glGenFramebuffers (name : Z)
  | glBindTexture (target : GLenum) (texture : Z)
  | glTexImage2D (internalformat : GLenum) (width height : nat)
                 (type : GLenum) (data : option (list Vec3b))
  | glBindFramebuffer (target : GLenum) (framebuffer : Z)
  | glFramebufferTexture2D (attachment : GLenum) (texture : Z)
  | glCheckFramebufferStatus (status : Z)
  | glEnable (cap : GLenum)
  | glDisable (cap : GLenum)
  | glClearColor (r g b a : float)
  | glClear (mask : list GLenum)
  | glBlendFunc (sfactor dfactor : GLenum)
  | glBlitFramebuffer (srcX0 srcY0 srcX1 srcY1 dstX0 dstY0 dstX1 dstY1 : Z)
                      (mask filter : GLenum)
  | glViewport (x y w h : Z)
  | UpdateVertexArray (n : Node) (p : vec3)
  | DrawableRender (n : Node) (d : Drawable) (projection view : MatrixArg)
  | PointCloudRender (projection view : MatrixArg) (model : mat4)
                     (points : list float).

(** [TangoImageBuffer]: [data] is the block the frame's pointer refers to. *)
Record TangoImageBuffer := {
  width : nat;
  height : nat;
  format : Z;
  data : list Z
}.

(** [TangoXYZij]: [xyz] is the array of [float[3]] points the callback
    passes, [xyz_count] the number of points it announces. *)
Record TangoXYZij := {
  xyz_count : Z;
  xyz : list (float * float * float)
}.

(** The members of [Scene], grouped by what they serve: the camera and
    the drawables, the double-buffered video frame, and the rest.  The
    class is declared in scene.h, which is not part of the source tree:
    the members are those scene.cc reads and writes, with the types its
    uses give them. *)
Record Drawables := {
  gesture_camera_ : GestureCamera;
  yuv_drawable_ : Drawable;
  depth_drawable_ : Drawable;
  axis_ : Drawable;
  frustum_ : Drawable;
  trace_ : Drawable;
  grid_ : Drawable;
  cube_ : Drawable;
  point_cloud_drawable_ : Drawable
}.

Record VideoStore := {
  is_yuv_texture_available_ : bool;
  swap_buffer_signal_ : bool;
  yuv_width_ : nat;
  yuv_height_ : nat;
  uv_buffer_offset_ : nat;
  yuv_size_ : nat;
  yuv_buffer_ : list Z;
  yuv_temp_buffer_ : list Z;
  rgb_buffer_ : list Z;
  rgb_frame : Mat
}.

Record Scene := {
  depth_frame : Mat;
  depth_frame_buffer_ : Z;
  depth_frame_buffer_depth_texture_ : Z;
  drawables : Drawables;
  video : VideoStore;
  vertices : list float;
  point_cloud_transformation : mat4;
  camera_image_plane_ratio_ : float;
  image_plane_distance_ : float;
  ar_camera_projection_matrix_ : mat4
}.

(** *** Access to the drawables by name *)

Definition drawable (n : Node) (ds : Drawables) : Drawable :=
  match n with
  | yuv_node => yuv_drawable_ ds
  | depth_node => depth_drawable_ ds
  | axis_node => axis_ ds
  | frustum_node => frustum_ ds
  | trace_node => trace_ ds
  | grid_node => grid_ ds
  | cube_node => cube_ ds
  | point_cloud_node => point_cloud_drawable_ ds
  end.

Definition Node_eqb (a b : Node) : bool :=
  match a, b with
  | yuv_node, yuv_node | depth_node, depth_node | axis_node, axis_node
  | frustum_node, frustum_node | trace_node, trace_node
  | grid_node, grid_node | cube_node, cube_node
  | point_cloud_node, point_cloud_node => true
  | _, _ => false
  end.

(** [n->f(...)]: the drawable [n] is replaced by [f] of it. *)
Definition update_drawable (n : Node) (f : Drawable → Drawable)
    (ds : Drawables) : Drawables :=
  let pick m := if Node_eqb n m then f (drawable m ds) else drawable m ds in
  {| gesture_camera_ := gesture_camera_ ds;
     yuv_drawable_ := pick yuv_node;
     depth_drawable_ := pick depth_node;
     axis_ := pick axis_node;
     frustum_ := pick frustum_node;
     trace_ := pick trace_node;
     grid_ := pick grid_node;
     cube_ := pick cube_node;
     point_cloud_drawable_ := pick point_cloud_node |}.

Definition update_camera (f : GestureCamera → GestureCamera)
    (ds : Drawables) : Drawables :=
  {| gesture_camera_ := f (gesture_camera_ ds);
     yuv_drawable_ := yuv_drawable_ ds;
     depth_drawable_ := depth_drawable_ ds;
     axis_ := axis_ ds;
     frustum_ := frustum_ ds;
     trace_ := trace_ ds;
     grid_ := grid_ ds;
     cube_ := cube_ ds;
     point_cloud_drawable_ := point_cloud_drawable_ ds |}.

(** *** Assignments to the members of [Scene] *)

Definition with_drawables (f : Drawables → Drawables) (s : Scene) : Scene :=
  {| depth_frame := depth_frame s;
     depth_frame_buffer_ := depth_frame_buffer_ s;
     depth_frame_buffer_depth_texture_ := depth_frame_buffer_depth_texture_ s;
     drawables := f (drawables s);
     video := video s;
     vertices := vertices s;
     point_cloud_transformation := point_cloud_transformation s;
     camera_image_plane_ratio_ := camera_image_plane_ratio_ s;
     image_plane_distance_ := image_plane_distance_ s;
     ar_camera_projection_matrix_ := ar_camera_projection_matrix_ s |}.

Definition with_video (f : VideoStore → VideoStore) (s : Scene) : Scene :=
  {| depth_frame := depth_frame s;
     depth_frame_buffer_ := depth_frame_buffer_ s;
     depth_frame_buffer_depth_texture_ := depth_frame_buffer_depth_texture_ s;
     drawables := drawables s;
     video := f (video s);
     vertices := vertices s;
     point_cloud_transformation := point_cloud_transformation s;
     camera_image_plane_ratio_ := camera_image_plane_ratio_ s;
     image_plane_distance_ := image_plane_distance_ s;
     ar_camera_projection_matrix_ := ar_camera_projection_matrix_ s |}.

Definition set_vertices (v : list float) (s : Scene) : Scene :=
  {| depth_frame := depth_frame s;
     depth_frame_buffer_ := depth_frame_buffer_ s;
     depth_frame_buffer_depth_texture_ := depth_frame_buffer_depth_texture_ s;
     drawables := drawables s;
     video := video s;
     vertices := v;
     point_cloud_transformation := point_cloud_transformation s;
     camera_image_plane_ratio_ := camera_image_plane_ratio_ s;
     image_plane_distance_ := image_plane_distance_ s;
     ar_camera_projection_matrix_ := ar_camera_projection_matrix_ s |}.

Definition set_depth_frame (m : Mat) (s : Scene) : Scene :=
  {| depth_frame := m;
     depth_frame_buffer_ := depth_frame_buffer_ s;
     depth_frame_buffer_depth_texture_ := depth_frame_buffer_depth_texture_ s;
     drawables := drawables s;
     video := video s;
     vertices := vertices s;
     point_cloud_transformation := point_cloud_transformation s;
     camera_image_plane_ratio_ := camera_image_plane_ratio_ s;
     image_plane_distance_ := image_plane_distance_ s;
     ar_camera_projection_matrix_ := ar_camera_projection_matrix_ s |}.

Definition set_depth_frame_buffer_ (fb : Z) (s : Scene) : Scene :=
  {| depth_frame := depth_frame s;
     depth_frame_buffer_ := fb;
     depth_frame_buffer_depth_texture_ := depth_frame_buffer_depth_texture_ s;
     drawables := drawables s;
     video := video s;
     vertices := vertices s;
     point_cloud_transformation := point_cloud_transformation s;
     camera_image_plane_ratio_ := camera_image_plane_ratio_ s;
     image_plane_distance_ := image_plane_distance_ s;
     ar_camera_projection_matrix_ := ar_camera_projection_matrix_ s |}.

Definition set_depth_frame_buffer_depth_texture_ (t : Z) (s : Scene) : Scene :=
  {| depth_frame := depth_frame s;
     depth_frame_buffer_ := depth_frame_buffer_ s;
     depth_frame_buffer_depth_texture_ := t;
     drawables := drawables s;
     video := video s;
     vertices := vertices s;
     point_cloud_transformation := point_cloud_transformation s;
     camera_image_plane_ratio_ := camera_image_plane_ratio_ s;
     image_plane_distance_ := image_plane_distance_ s;
     ar_camera_projection_matrix_ := ar_camera_projection_matrix_ s |}.

(** Assignments to the members of the video store. *)

(** Lines 227-231: the size of the first frame is latched. *)
Definition latch_size (w h : nat) (v : VideoStore) : VideoStore :=
  {| is_yuv_texture_available_ := is_yuv_texture_available_ v;
     swap_buffer_signal_ := swap_buffer_signal_ v;
     yuv_width_ := w;
     yuv_height_ := h;
     uv_buffer_offset_ := w * h;
     yuv_size_ := w * h + w * h / 2;
     yuv_buffer_ := yuv_buffer_ v;
     yuv_temp_buffer_ := yuv_temp_buffer_ v;
     rgb_buffer_ := rgb_buffer_ v;
     rgb_frame := rgb_frame v |}.

(** Lines 234-237: the buffers are resized to the latched size
    ([std::vector::resize] keeps a prefix and pads with zeros), and the
    image is allocated anew, in a block that holds [storage]. *)
Definition reserve_buffers (storage : nat → Vec3b) (v : VideoStore)
  : VideoStore :=
  {| is_yuv_texture_available_ := is_yuv_texture_available_ v;
     swap_buffer_signal_ := swap_buffer_signal_ v;
     yuv_width_ := yuv_width_ v;
     yuv_height_ := yuv_height_ v;
     uv_buffer_offset_ := uv_buffer_offset_ v;
     yuv_size_ := yuv_size_ v;
     yuv_buffer_ := resize (yuv_size_ v) 0%Z (yuv_buffer_ v);
     yuv_temp_buffer_ := resize (yuv_size_ v) 0%Z (yuv_temp_buffer_ v);
     rgb_buffer_ :=
       resize (yuv_width_ v * yuv_height_ v * 3) 0%Z (rgb_buffer_ v);
     rgb_frame := Mat_create storage (yuv_height_ v) (yuv_width_ v) |}.

Definition set_is_yuv_texture_available_ (b : bool) (v : VideoStore)
  : VideoStore :=
  {| is_yuv_texture_available_ := b;
     swap_buffer_signal_ := swap_buffer_signal_ v;
     yuv_width_ := yuv_width_ v;
     yuv_height_ := yuv_height_ v;
     uv_buffer_offset_ := uv_buffer_offset_ v;
     yuv_size_ := yuv_size_ v;
     yuv_buffer_ := yuv_buffer_ v;
     yuv_temp_buffer_ := yuv_temp_buffer_ v;
     rgb_buffer_ := rgb_buffer_ v;
     rgb_frame := rgb_frame v |}.

(** Lines 246-247: the frame is stored in the pending slot and announced. *)
Definition store_pending (bytes : list Z) (v : VideoStore) : VideoStore :=
  {| is_yuv_texture_available_ := is_yuv_texture_available_ v;
     swap_buffer_signal_ := true;
     yuv_width_ := yuv_width_ v;
     yuv_height_ := yuv_height_ v;
     uv_buffer_offset_ := uv_buffer_offset_ v;
     yuv_size_ := yuv_size_ v;
     yuv_buffer_ := yuv_buffer_ v;
     yuv_temp_buffer_ := bytes;
     rgb_buffer_ := rgb_buffer_ v;
     rgb_frame := rgb_frame v |}.

(** Lines 263-269: under the lock, the two slots are exchanged when a frame
    is pending, and the signal is cleared. *)
Definition swap_buffers (v : VideoStore) : VideoStore :=
  if swap_buffer_signal_ v then
    {| is_yuv_texture_available_ := is_yuv_texture_available_ v;
       swap_buffer_signal_ := false;
       yuv_width_ := yuv_width_ v;
       yuv_height_ := yuv_height_ v;
       uv_buffer_offset_ := uv_buffer_offset_ v;
       yuv_size_ := yuv_size_ v;
       yuv_buffer_ := yuv_temp_buffer_ v;
       yuv_temp_buffer_ := yuv_buffer_ v;
       rgb_buffer_ := rgb_buffer_ v;
       rgb_frame := rgb_frame v |}
  else v.

Definition set_rgb_frame (m : Mat) (v : VideoStore) : VideoStore :=
  {| is_yuv_texture_available_ := is_yuv_texture_available_ v;
     swap_buffer_signal_ := swap_buffer_signal_ v;
     yuv_width_ := yuv_width_ v;
     yuv_height_ := yuv_height_ v;
     uv_buffer_offset_ := uv_buffer_offset_ v;
     yuv_size_ := yuv_size_ v;
     yuv_buffer_ := yuv_buffer_ v;
     yuv_temp_buffer_ := yuv_temp_buffer_ v;
     rgb_buffer_ := rgb_buffer_ v;
     rgb_frame := m |}.

(** ** Operations: a state monad that collects the calls made *)

(** A run either ends in a state, or reaches a [memcpy] outside its blocks
    ([None]: the behaviour of the source is undefined from there on). *)
Definition Op (A : Type) : Type := Scene → option (A * Scene) * list Event.

#[export] Instance Op_ret : MRet Op := λ A a s, (Some (a, s), []).

#[export] Instance Op_bind : MBind Op := λ A B k m s,
  match m s with
  | (Some (a, s'), t) => let '(r, t') := k a s' in (r, t ++ t')
  | (None, t) => (None, t)
  end.

Definition gets {A : Type} (f : Scene → A) : Op A := λ s, (Some (f s, s), []).
Definition modify (f : Scene → Scene) : Op unit := λ s, (Some (tt, f s), []).
Definition emit (e : Event) : Op unit := λ s, (Some (tt, s), [e]).
Definition undefined_behaviour : Op unit := λ s, (None, []).

(** The state and the calls of a run that ends. *)
Definition final_state (r : option (unit * Scene) * list Event) : option Scene :=
  snd <$> fst r.
Definition calls (r : option (unit * Scene) * list Event) : list Event := snd r.

(** What the allocator, the constructors of the collaborators and the GL
    driver hand to [InitGLContent]: the content of the block allocated for
    [depth_frame], the fresh objects, the generated names and the status of
    the auxiliary framebuffer. *)
Record GLContext := {
  depth_frame_storage : nat → Vec3b;
  new_DepthDrawable : Drawable;
  new_YUVDrawable : Drawable;
  new_GestureCamera : GestureCamera;
  new_Axis : Drawable;
  new_Frustum : Drawable;
  new_Trace : Drawable;
  new_Grid : Drawable;
  new_Cube : Drawable;
  new_PointCloudDrawable : Drawable;
  gen_texture : Z;
  gen_framebuffer : Z;
  framebuffer_status : Z
}.

(** The constants of the anonymous namespace (lines 27-39); a literal with
    the suffix [f] is a binary32 value. *)
Definition float_lit (d : float) : float := double_to_float d.

Definition kHeightOffset : vec3 := (float_lit 0, float_lit 0, float_lit 0)%float.
Definition kTraceColor : vec3 :=
  (float_lit 0.22, float_lit 0.28, float_lit 0.67)%float.
Definition kGridColor : vec3 :=
  (float_lit 0.85, float_lit 0.85, float_lit 0.85)%float.
Definition kCubeRotation : quat :=
  {| qw := float_lit 0; qx := float_lit 0; qy := float_lit 1;
     qz := float_lit 0 |}%float.
Definition kCubePosition : vec3 :=
  (float_lit 0, float_lit 0, float_neg (float_lit 1))%float.
Definition kCubeScale : vec3 :=
  (float_lit 0.05, float_lit 0.05, float_lit 0.05)%float.
Definition kCubeColor : vec3 := (float_lit 1, float_lit 0, float_lit 0)%float.

Definition vec3_neg (p : vec3) : vec3 :=
  let '(x, y, z) := p in (float_neg x, float_neg y, float_neg z).

Definition set_drawable (n : Node) (d : Drawable) : Op unit :=
  modify (with_drawables (update_drawable n (λ _, d))).

(** [n->f(...)] on a drawable, and [gesture_camera_->f(...)]. *)
Definition on_drawable (n : Node) (f : Drawable → Drawable) : Op unit :=
  modify (with_drawables (update_drawable n f)).

Definition on_camera (f : GestureCamera → GestureCamera) : Op unit :=
  modify (with_drawables (update_camera f)).

(** The matrices handed to the draw calls, read when the call is made. *)
Definition identity_matrix (s : Scene) : MatrixArg := GivenMatrix mat4_identity.
Definition ar_projection (s : Scene) : MatrixArg :=
  GivenMatrix (ar_camera_projection_matrix_ s).
Definition camera_view (s : Scene) : MatrixArg :=
  GetViewMatrix (gesture_camera_ (drawables s)).
Definition camera_projection (s : Scene) : MatrixArg :=
  GetProjectionMatrix (gesture_camera_ (drawables s)).

(** [n->Render(projection, view)]. *)
Definition render (n : Node) (projection view : Scene → MatrixArg) : Op unit :=
  d ← gets (λ s, drawable n (drawables s));
  p ← gets projection;
  v ← gets view;
  emit (DrawableRender n d p v).

(** ** [InitGLContent] (lines 55-101) *)
Definition InitGLContent (gl : GLContext) : Op unit :=
  (* create drawable with rgb texture *)
  modify (set_depth_frame (Mat_create (depth_frame_storage gl) 1280 720)) ;;
  set_drawable depth_node (new_DepthDrawable gl) ;;
  depth ← gets (λ s, depth_drawable_ (drawables s));
  frame ← gets depth_frame;
  emit (glBindTexture GL_TEXTURE_2D (texture_id depth)) ;;
  emit (glTexImage2D GL_RGB (rows frame) (cols frame) GL_UNSIGNED_BYTE None) ;;
  (* create depth texture *)
  emit (glGenTextures (gen_texture gl)) ;;
  modify (set_depth_frame_buffer_depth_texture_ (gen_texture gl)) ;;
  depth_texture ← gets depth_frame_buffer_depth_texture_;
  emit (glBindTexture GL_TEXTURE_2D depth_texture) ;;
  emit (glTexImage2D GL_DEPTH_COMPONENT (rows frame) (cols frame)
          GL_UNSIGNED_SHORT None) ;;
  (* create frame buffer with color texture and depth *)
  emit (glGenFramebuffers (gen_framebuffer gl)) ;;
  modify (set_depth_frame_buffer_ (gen_framebuffer gl)) ;;
  fb ← gets depth_frame_buffer_;
  emit (glBindFramebuffer GL_FRAMEBUFFER fb) ;;
  emit (glFramebufferTexture2D GL_COLOR_ATTACHMENT0 (texture_id depth)) ;;
  emit (glFramebufferTexture2D GL_DEPTH_ATTACHMENT depth_texture) ;;
  emit (glCheckFramebufferStatus (framebuffer_status gl)) ;;
  let status := framebuffer_status gl in
  (* check for errors of framebuffer *)
  (if negb (status =? GL_FRAMEBUFFER_COMPLETE)%Z
   then emit (LOGE "ERROR %d in fb %d " [fb])
   else mret tt) ;;
  (* Allocating render camera and drawable object. *)
  set_drawable yuv_node (new_YUVDrawable gl) ;;
  on_camera (λ _, new_GestureCamera gl) ;;
  set_drawable axis_node (new_Axis gl) ;;
  set_drawable frustum_node (new_Frustum gl) ;;
  set_drawable trace_node (new_Trace gl) ;;
  set_drawable grid_node (new_Grid gl) ;;
  set_drawable cube_node (new_Cube gl) ;;
  set_drawable point_cloud_node (new_PointCloudDrawable gl) ;;
  on_drawable trace_node (SetColor kTraceColor) ;;
  on_drawable grid_node (SetColor kGridColor) ;;
  on_drawable grid_node (SetPosition (vec3_neg kHeightOffset)) ;;
  on_drawable cube_node (SetPosition kCubePosition) ;;
  on_drawable cube_node (SetScale kCubeScale) ;;
  on_drawable cube_node (SetRotation kCubeRotation) ;;
  on_drawable cube_node (SetColor kCubeColor) ;;
  on_camera (SetCameraType_camera kThirdPerson).

(** ** [SetupViewPort] (lines 115-121) *)
Definition SetupViewPort (x y w h : Z) : Op unit :=
  (if (h =? 0)%Z
   then emit (LOGE "Setup graphic height not valid" [])
   else mret tt) ;;
  on_camera (SetAspectRatio (float_div (int_to_float w) (int_to_float h))) ;;
  emit (glViewport x y w h).

(** ** [SetCameraType] (lines 186-207) *)
Definition identity_rotation : quat :=
  {| qw := float_lit 1; qx := float_lit 0; qy := float_lit 0;
     qz := float_lit 0 |}%float.

Definition SetCameraType (camera_type : CameraType) : Op unit :=
  on_camera (SetCameraType_camera camera_type) ;;
  on_drawable depth_node (SetParent None) ;;
  on_drawable depth_node
    (SetScale (float_lit 0.3, float_lit 0.3, float_lit 0.3)%float) ;;
  on_drawable depth_node
    (SetPosition (float_lit 0.6, float_neg (float_lit 0.6), float_lit 0)%float) ;;
  on_drawable depth_node (SetRotation identity_rotation) ;;
  if CameraType_eqb camera_type kFirstPerson then
    on_drawable yuv_node (SetParent None) ;;
    on_drawable yuv_node
      (SetScale (float_lit 1, float_lit 1, float_lit 1)%float) ;;
    on_drawable yuv_node
      (SetPosition (float_lit 0, float_lit 0, float_lit 0)%float) ;;
    on_drawable yuv_node (SetRotation identity_rotation)
  else
    ratio ← gets camera_image_plane_ratio_;
    distance ← gets image_plane_distance_;
    on_drawable yuv_node
      (SetScale (float_lit 1, ratio, float_lit 1)%float) ;;
    on_drawable yuv_node (SetRotation identity_rotation) ;;
    on_drawable yuv_node
      (SetPosition (float_lit 0, float_lit 0, float_neg distance)%float) ;;
    on_drawable yuv_node (SetParent (Some axis_node)).

(** ** [OnFrameAvailable] (lines 213-248)

    [storage] is the content of the block that line 237 allocates for the
    image when the first frame is accepted; no other call reads it. *)
Definition OnFrameAvailable (storage : nat → Vec3b)
    (buffer : TangoImageBuffer) : Op unit :=
  yuv ← gets (λ s, yuv_drawable_ (drawables s));
  if (texture_id yuv =? 0)%Z then
    emit (LOGE "yuv texture id not valid" [])
  else if negb (format buffer =? TANGO_HAL_PIXEL_FORMAT_YCrCb_420_SP)%Z then
    emit (LOGE "yuv texture format is not supported by this app" [])
  else
    available ← gets (λ s, is_yuv_texture_available_ (video s));
    (* The memory needs to be allocated after we get the first frame
       because we need to know the size of the image. *)
    (if negb available then
       modify (with_video (latch_size (width buffer) (height buffer))) ;;
       emit (LOGE "%d %d" [Z.of_nat (width buffer); Z.of_nat (height buffer)]) ;;
       modify (with_video (reserve_buffers storage)) ;;
       frame ← gets (λ s, rgb_frame (video s));
       emit (glBindTexture GL_TEXTURE_2D (texture_id yuv)) ;;
       emit (glTexImage2D GL_RGB (cols frame) (rows frame) GL_UNSIGNED_BYTE
               (Some (pixels frame))) ;;
       modify (with_video (set_is_yuv_texture_available_ true))
     else mret tt) ;;
    (* lock_guard on yuv_buffer_mutex_ *)
    pending ← gets (λ s, yuv_temp_buffer_ (video s));
    size ← gets (λ s, yuv_size_ (video s));
    match memcpy pending (data buffer) size with
    | Some bytes => modify (with_video (store_pending bytes))
    | None => undefined_behaviour
    end.

(** ** [OnXYZijAvailable] (lines 250-260)

    [xyz[i][0] * .9] and [xyz[i][1] * 1.2] are products in [double], rounded
    to [float] by [push_back]; [xyz[i][2]] is stored as it is. *)
Definition scaled_point (p : float * float * float) : list float :=
  let '(x, y, z) := p in
  [double_to_float (x * 0.9)%float; double_to_float (y * 1.2)%float; z].

Definition OnXYZijAvailable (XYZ_ij : TangoXYZij) : Op unit :=
  let points :=
    for_loop (Z.to_nat (xyz_count XYZ_ij))
      (λ i points,
         points ++ scaled_point (default (0, 0, 0)%float (xyz XYZ_ij !! i)))
      [] in
  (* depth_mutex_.lock() *)
  modify (set_vertices points).

(** What the render pass reads of the point-cloud store under the lock
    (line 169). *)
Definition Snapshot (s : Scene) : list float * mat4 :=
  (vertices s, point_cloud_transformation s).

Section Conversion.

Variable out_of_range_cast : float → Z.

(** ** [ConvertYuvToRGBMat] (lines 262-286) *)

(** Lines 272-275: the column of the chroma pair read for column [j]. *)
Definition x_index (j : nat) : nat :=
  if negb (j mod 2 =? 0) then j - 1 else j.

(** Lines 278-281: the pixel computed for row [i] and column [j] of the
    active slot. *)
Definition rgb_dot (v : VideoStore) (i j : nat) : Vec3b :=
  Yuv2Rgb out_of_range_cast
    (read (yuv_buffer_ v) (i * yuv_width_ v + j))
    (read (yuv_buffer_ v)
       (uv_buffer_offset_ v + (i / 2) * yuv_width_ v + x_index j + 1))
    (read (yuv_buffer_ v)
       (uv_buffer_offset_ v + (i / 2) * yuv_width_ v + x_index j)).

(** Lines 270-284: both loops, writing [rgb_frame]. *)
Definition convert_frame (v : VideoStore) : VideoStore :=
  set_rgb_frame
    (for_loop (yuv_height_ v)
       (λ i, for_loop (yuv_width_ v)
               (λ j frame, Mat_set frame i j (rgb_dot v i j)))
       (rgb_frame v))
    v.

Definition ConvertYuvToRGBMat : Op unit :=
  modify (with_video swap_buffers) ;;
  modify (with_video convert_frame).

(** ** [BindRGBMatAsTexture] (lines 288-291) *)
Definition BindRGBMatAsTexture : Op unit :=
  yuv ← gets (λ s, yuv_drawable_ (drawables s));
  frame ← gets (λ s, rgb_frame (video s));
  emit (glBindTexture GL_TEXTURE_2D (texture_id yuv)) ;;
  emit (glTexImage2D GL_RGB (cols frame) (rows frame) GL_UNSIGNED_BYTE
          (Some (pixels frame))).

(** ** [Render] (lines 123-184) *)
Definition Render (cur_pose_transformation : mat4) : Op unit :=
  available ← gets (λ s, is_yuv_texture_available_ (video s));
  if negb available then mret tt
  else
    ConvertYuvToRGBMat ;;
    BindRGBMatAsTexture ;;
    emit (glEnable GL_DEPTH_TEST) ;;
    emit (glClearColor 1 1 1 1) ;;
    emit (glClear [GL_DEPTH_BUFFER_BIT; GL_COLOR_BUFFER_BIT]) ;;
    let position :=
      (mat4_at cur_pose_transformation 3 0,
       mat4_at cur_pose_transformation 3 1,
       mat4_at cur_pose_transformation 3 2) in
    emit (UpdateVertexArray trace_node position) ;;
    camera ← gets (λ s, gesture_camera_ (drawables s));
    (if CameraType_eqb (camera_type camera) kFirstPerson then
       (* In first person mode, we directly control camera's motion. *)
       on_camera (SetTransformationMatrix_camera cur_pose_transformation) ;;
       emit (glDisable GL_DEPTH_TEST) ;;
       render yuv_node identity_matrix identity_matrix
     else
       (* In third person or top down more, we follow the camera movement. *)
       on_camera (SetAnchorPosition position) ;;
       on_drawable frustum_node
         (SetTransformationMatrix cur_pose_transformation) ;;
       ratio ← gets camera_image_plane_ratio_;
       distance ← gets image_plane_distance_;
       on_drawable frustum_node
         (SetScale (float_lit 1, ratio, distance)%float) ;;
       render frustum_node ar_projection camera_view ;;
       on_drawable axis_node
         (SetTransformationMatrix cur_pose_transformation) ;;
       render axis_node ar_projection camera_view ;;
       render trace_node ar_projection camera_view ;;
       render yuv_node ar_projection camera_view) ;;
    emit (glEnable GL_BLEND) ;;
    emit (glBlendFunc GL_SRC_ALPHA GL_ONE_MINUS_SRC_ALPHA) ;;
    emit (glEnable GL_DEPTH_TEST) ;;
    (* draw depth to framebuffer object *)
    fb ← gets depth_frame_buffer_;
    emit (glBindFramebuffer GL_FRAMEBUFFER fb) ;;
    emit (glClearColor 1 1 1 1) ;;
    emit (glClear [GL_COLOR_BUFFER_BIT; GL_DEPTH_BUFFER_BIT]) ;;
    (* depth_mutex_.lock() *)
    projection ← gets camera_projection;
    view ← gets camera_view;
    cloud ← gets Snapshot;
    emit (PointCloudRender projection view (snd cloud) (fst cloud)) ;;
    (* depth_mutex_.unlock() *)
    emit (glBindFramebuffer GL_FRAMEBUFFER 0) ;;
    (* copy depth to main framebuffer *)
    emit (glBindFramebuffer GL_READ_FRAMEBUFFER fb) ;;
    emit (glBindFramebuffer GL_DRAW_FRAMEBUFFER 0) ;;
    emit (glBlitFramebuffer 0 0 1280 720 0 0 1280 720
            GL_DEPTH_BUFFER_BIT GL_NEAREST) ;;
    emit (glBindFramebuffer GL_FRAMEBUFFER 0) ;;
    (* render rest of drawables *)
    render depth_node identity_matrix identity_matrix ;;
    render grid_node ar_projection camera_view ;;
    render cube_node ar_projection camera_view.

End Conversion.

(** ** The two threads, step by step

    The producer thread runs [OnFrameAvailable] while the consumer thread
    runs [ConvertYuvToRGBMat].  What [yuv_buffer_mutex_] guards is one step,
    since the two critical sections exclude each other; the conversion loop
    runs outside the mutex, one turn of its body is one step.  The steps
    act on the members both threads can reach, the video store. *)
Inductive Step :=
  | consumer_swap                 (* lines 263-269, under the mutex *)
  | consumer_pixel (i j : nat)    (* lines 272-282, one turn of the loop *)
  | producer_guards               (* lines 214-226: members are only read *)
  | producer_store (data : list Z). (* lines 245-247, under the mutex *)

Section Threads.

Variable out_of_range_cast : float → Z.

(** A step that copies outside its blocks is not defined. *)
Definition step (st : Step) (v : VideoStore) : option VideoStore :=
  match st with
  | consumer_swap => Some (swap_buffers v)
  | consumer_pixel i j =>
      Some (set_rgb_frame
              (Mat_set (rgb_frame v) i j (rgb_dot out_of_range_cast v i j)) v)
  | producer_guards => Some v
  | producer_store data =>
      match memcpy (yuv_temp_buffer_ v) data (yuv_size_ v) with
      | Some bytes => Some (store_pending bytes v)
      | None => None
      end
  end.

Fixpoint run_steps (l : list Step) (v : VideoStore) : option VideoStore :=
  match l with
  | [] => Some v
  | st :: l' => step st v ≫= run_steps l'
  end.

End Threads.

(** The steps of [ConvertYuvToRGBMat] on a store latched to [w] by [h], and
    the steps of an [OnFrameAvailable] that passes its guards on a store
    that is already allocated.  (The first delivery allocates the store
    outside the mutex, lines 226-243, and sets [is_yuv_texture_available_]
    last; [Render] converts nothing before that flag is set.) *)
Definition pixel_steps (h w : nat) : list Step :=
  flat_map (λ i, consumer_pixel i <$> seq 0 w) (seq 0 h).

Definition consumer_steps (h w : nat) : list Step :=
  consumer_swap :: pixel_steps h w.

Definition producer_steps (data : list Z) : list Step :=
  [producer_guards; producer_store data].

(** [l] runs the steps of [l1] and of [l2], each list in its order. *)
Inductive interleaving {A : Type} : list A → list A → list A → Prop :=
  | interleaving_nil : interleaving [] [] []
  | interleaving_left x l1 l2 l :
      interleaving l1 l2 l → interleaving (x :: l1) l2 (x :: l)
  | interleaving_right x l1 l2 l :
      interleaving l1 l2 l → interleaving l1 (x :: l2) (x :: l).

Definition is_pixel (st : Step) : Prop := ∃ i j, st = consumer_pixel i j.
Definition is_producer (st : Step) : Prop :=
  st = producer_guards ∨ ∃ data, st = producer_store data.

(** A sequence of mode-change requests, served in order. *)
Definition SetCameraTypes (modes : list CameraType) : Op unit :=
  foldr (λ mode rest, SetCameraType mode ;; rest) (mret tt) modes.

(** The same answers of the driver, with another framebuffer status. *)
Definition with_status (status : Z) (gl : GLContext) : GLContext :=
  {| depth_frame_storage := depth_frame_storage gl;
     new_DepthDrawable := new_DepthDrawable gl;
     new_YUVDrawable := new_YUVDrawable gl;
     new_GestureCamera := new_GestureCamera gl;
     new_Axis := new_Axis gl;
     new_Frustum := new_Frustum gl;
     new_Trace := new_Trace gl;
     new_Grid := new_Grid gl;
     new_Cube := new_Cube gl;
     new_PointCloudDrawable := new_PointCloudDrawable gl;
     gen_texture := gen_texture gl;
     gen_framebuffer := gen_framebuffer gl;
     framebuffer_status := status |}.

(** The GL calls of [InitGLContent] up to the completeness check. *)
Definition target_setup_calls (gl : GLContext) : list Event :=
  [glBindTexture GL_TEXTURE_2D (texture_id (new_DepthDrawable gl));
   glTexImage2D GL_RGB 1280 720 GL_UNSIGNED_BYTE None;
   glGenTextures (gen_texture gl);
   glBindTexture GL_TEXTURE_2D (gen_texture gl);
   glTexImage2D GL_DEPTH_COMPONENT 1280 720 GL_UNSIGNED_SHORT None;
   glGenFramebuffers (gen_framebuffer gl);
   glBindFramebuffer GL_FRAMEBUFFER (gen_framebuffer gl);
   glFramebufferTexture2D GL_COLOR_ATTACHMENT0
     (texture_id (new_DepthDrawable gl));
   glFramebufferTexture2D GL_DEPTH_ATTACHMENT (gen_texture gl)].

(** The calls of the depth pass of [Render] (lines 165-177) on the
    framebuffer [fb]: the point cloud is drawn into it and its depth is
    copied to the main framebuffer. *)
Definition depth_pass_calls (fb : Z) (projection view : MatrixArg)
    (cloud : list float * mat4) : list Event :=
  [glBindFramebuffer GL_FRAMEBUFFER fb;
   glClearColor 1 1 1 1;
   glClear [GL_COLOR_BUFFER_BIT; GL_DEPTH_BUFFER_BIT];
   PointCloudRender projection view (snd cloud) (fst cloud);
   glBindFramebuffer GL_FRAMEBUFFER 0;
   glBindFramebuffer GL_READ_FRAMEBUFFER fb;
   glBindFramebuffer GL_DRAW_FRAMEBUFFER 0;
   glBlitFramebuffer 0 0 1280 720 0 0 1280 720 GL_DEPTH_BUFFER_BIT GL_NEAREST;
   glBindFramebuffer GL_FRAMEBUFFER 0].

(** [GL_FRAMEBUFFER_UNSUPPORTED] (0x8CDD), one of the statuses of an
    incomplete framebuffer. *)
Definition GL_FRAMEBUFFER_UNSUPPORTED : Z := 36061.

(** The video store is allocated for frames of [w] by [h] pixels: what the
    first accepted frame establishes (lines 227-242). *)
Definition latched_to (w h : nat) (v : VideoStore) : Prop :=
  is_yuv_texture_available_ v = true ∧
  yuv_width_ v = w ∧
  yuv_height_ v = h ∧
  uv_buffer_offset_ v = w * h ∧
  yuv_size_ v = w * h + w * h / 2 ∧
  length (yuv_buffer_ v) = w * h + w * h / 2 ∧
  length (yuv_temp_buffer_ v) = w * h + w * h / 2 ∧
  length (rgb_buffer_ v) = w * h * 3 ∧
  rows (rgb_frame v) = h ∧
  cols (rgb_frame v) = w ∧
  length (pixels (rgb_frame v)) = h * w.

(** A call is refused when it logs one line and leaves the scene as it
    was, as the two guards of [OnFrameAvailable] do. *)
Definition refused (r : option (unit * Scene) * list Event) (s : Scene) : Prop :=
  ∃ message args, r = (Some (tt, s), [LOGE message args]).

(** ** The conversion as a function of the frame

    The image of a frame of [w] by [h] pixels, row by row: what the two
    loops of [ConvertYuvToRGBMat] store, written as one expression of the
    bytes of the frame. *)
Definition image_of (cast : float → Z) (w h : nat) (frame : list Z)
  : list Vec3b :=
  flat_map
    (λ i, (λ j, Yuv2Rgb cast
                  (read frame (i * w + j))
                  (read frame (w * h + (i / 2) * w + x_index j + 1))
                  (read frame (w * h + (i / 2) * w + x_index j)))
          <$> seq 0 w)
    (seq 0 h).

(** ** The calls an application makes on a scene, served in order *)
Inductive Call :=
  | call_InitGLContent (gl : GLContext)
  | call_SetupViewPort (x y w h : Z)
  | call_Render (cur_pose_transformation : mat4)
  | call_SetCameraType (camera_type : CameraType)
  | call_OnFrameAvailable (storage : nat → Vec3b) (buffer : TangoImageBuffer)
  | call_OnXYZijAvailable (XYZ_ij : TangoXYZij).

Definition perform (cast : float → Z) (c : Call) : Op unit :=
  match c with
  | call_InitGLContent gl => InitGLContent gl
  | call_SetupViewPort x y w h => SetupViewPort x y w h
  | call_Render pose => Render cast pose
  | call_SetCameraType camera_type => SetCameraType camera_type
  | call_OnFrameAvailable storage buffer => OnFrameAvailable storage buffer
  | call_OnXYZijAvailable XYZ_ij => OnXYZijAvailable XYZ_ij
  end.

Definition perform_all (cast : float → Z) (cs : list Call) : Op unit :=
  foldr (λ c rest, perform cast c ;; rest) (mret tt) cs.

(** The frame a call delivers, if it delivers one in the accepted format,
    holds [n] bytes at least. *)
Definition carries (n : nat) (c : Call) : Prop :=
  match c with
  | call_OnFrameAvailable _ buffer =>
      format buffer = TANGO_HAL_PIXEL_FORMAT_YCrCb_420_SP →
      n ≤ length (data buffer)
  | _ => True
  end.

(** The drawables drawn by a list of calls, in order, and whether a call
    draws the point cloud. *)
Definition drawn_nodes (l : list Event) : list Node :=
  flat_map (λ e, match e with DrawableRender n _ _ _ => [n] | _ => [] end) l.

Definition is_PointCloudRender (e : Event) : bool :=
  match e with PointCloudRender _ _ _ _ => true | _ => false end.

(** Calls that draw nothing and touch no GL object: a log line, or the
    viewport. *)
Definition draws_nothing (e : Event) : bool :=
  match e with
  | LOGE _ _ | glViewport _ _ _ _ => true
  | _ => false
  end.

Definition is_InitGLContent (c : Call) : bool :=
  match c with call_InitGLContent _ => true | _ => false end.

(** ** Small scenes, to run the operations on *)

Definition example_drawable (texture : Z) : Drawable :=
  {| parent := None; position := (0, 0, 0)%float;
     rotation := identity_rotation; scale := (1, 1, 1)%float;
     transformation := None; color := (0, 0, 0)%float;
     texture_id := texture;
     from_matrix := λ m placed,
       ((mat4_at m 3 0, mat4_at m 3 1, mat4_at m 3 2), placed.1.2,
        placed.2) |}.

Definition example_camera : GestureCamera :=
  {| camera_type := kThirdPerson; aspect_ratio := 1%float;
     anchor_position := (0, 0, 0)%float; camera_transformation := None |}.

Definition example_context (status : Z) : GLContext :=
  {| depth_frame_storage := λ _, (9, 9, 9)%Z;
     new_DepthDrawable := example_drawable 1;
     new_YUVDrawable := example_drawable 2;
     new_GestureCamera := example_camera;
     new_Axis := example_drawable 0;
     new_Frustum := example_drawable 0;
     new_Trace := example_drawable 0;
     new_Grid := example_drawable 0;
     new_Cube := example_drawable 0;
     new_PointCloudDrawable := example_drawable 0;
     gen_texture := 3;
     gen_framebuffer := 1;
     framebuffer_status := status |}.

(** A scene whose GL content is not initialised: no texture, no frame. *)
Definition unset_scene : Scene :=
  {| depth_frame := Mat_default;
     depth_frame_buffer_ := 0;
     depth_frame_buffer_depth_texture_ := 0;
     drawables :=
       {| gesture_camera_ := example_camera;
          yuv_drawable_ := example_drawable 0;
          depth_drawable_ := example_drawable 0;
          axis_ := example_drawable 0;
          frustum_ := example_drawable 0;
          trace_ := example_drawable 0;
          grid_ := example_drawable 0;
          cube_ := example_drawable 0;
          point_cloud_drawable_ := example_drawable 0 |};
     video :=
       {| is_yuv_texture_available_ := false;
          swap_buffer_signal_ := false;
          yuv_width_ := 0; yuv_height_ := 0;
          uv_buffer_offset_ := 0; yuv_size_ := 0;
          yuv_buffer_ := []; yuv_temp_buffer_ := []; rgb_buffer_ := [];
          rgb_frame := Mat_default |};
     vertices := [];
     point_cloud_transformation := mat4_identity;
     camera_image_plane_ratio_ := 0.75%float;
     image_plane_distance_ := 1%float;
     ar_camera_projection_matrix_ := mat4_identity |}.

(** The same scene once the video quad owns texture 2. *)
Definition ready_scene : Scene :=
  with_drawables (update_drawable yuv_node (λ _, example_drawable 2)) unset_scene.

(** The state a run ends in (the state it started from when it does not
    end). *)
Definition state_after (m : Op unit) (s : Scene) : Scene :=
  match m s with
  | (Some (_, s'), _) => s'
  | (None, _) => s
  end.

(** What a freshly allocated block may hold: stale bytes, not zeros. *)
Definition stale_storage : nat → Vec3b :=
  λ k, (Z.of_nat k mod 256, 174, 52)%Z.

(** NV21 frames: 4x2 (12 bytes), 2x2 (6 bytes) and 4x4 (24 bytes). *)
Definition frame_4x2 : TangoImageBuffer :=
  {| width := 4; height := 2; format := TANGO_HAL_PIXEL_FORMAT_YCrCb_420_SP;
     data := [10; 20; 30; 40; 50; 60; 70; 80; 100; 110; 120; 130]%Z |}.

Definition frame_2x2 : TangoImageBuffer :=
  {| width := 2; height := 2; format := TANGO_HAL_PIXEL_FORMAT_YCrCb_420_SP;
     data := [1; 2; 3; 4; 5; 6]%Z |}.

Definition frame_4x4 : TangoImageBuffer :=
  {| width := 4; height := 4; format := TANGO_HAL_PIXEL_FORMAT_YCrCb_420_SP;
     data := [1; 2; 3; 4; 5; 6; 7; 8; 9; 10; 11; 12; 13; 14; 15; 16;
              17; 18; 19; 20; 21; 22; 23; 24]%Z |}.

(** [ready_scene] after the 4x2 frame has been delivered. *)
Definition delivered_scene : Scene :=
  state_after (OnFrameAvailable stale_storage frame_4x2) ready_scene.

(** The bytes of a second 4x2 frame, and a run in which its delivery falls
    into the conversion of the first: the producer passes its guards after
    one pixel and stores the frame after three. *)
Definition next_frame_data : list Z :=
  [201; 202; 203; 204; 205; 206; 207; 208; 90; 91; 92; 93]%Z.

Definition delivery_in_mid_conversion : list Step :=
  [consumer_swap; consumer_pixel 0 0; producer_guards; consumer_pixel 0 1;
   consumer_pixel 0 2; producer_store next_frame_data; consumer_pixel 0 3;
   consumer_pixel 1 0; consumer_pixel 1 1; consumer_pixel 1 2;
   consumer_pixel 1 3].

(** A second and a third 4x2 frame, a point cloud of two points of which
    one is announced, and a short sequence of calls. *)
Definition second_frame_4x2 : TangoImageBuffer :=
  {| width := 4; height := 2; format := TANGO_HAL_PIXEL_FORMAT_YCrCb_420_SP;
     data := next_frame_data |}.

Definition third_frame_4x2 : TangoImageBuffer :=
  {| width := 4; height := 2; format := TANGO_HAL_PIXEL_FORMAT_YCrCb_420_SP;
     data := [11; 12; 13; 14; 15; 16; 17; 18; 128; 128; 128; 128; 7]%Z |}.

Definition example_cloud : TangoXYZij :=
  {| xyz_count := 1; xyz := [(1, 2, 3)%float; (4, 5, 6)%float] |}.

Definition example_calls : list Call :=
  [call_Render mat4_identity;
   call_OnFrameAvailable stale_storage second_frame_4x2;
   call_SetCameraType kFirstPerson;
   call_OnFrameAvailable stale_storage frame_4x4;
   call_InitGLContent (example_context GL_FRAMEBUFFER_COMPLETE);
   call_SetupViewPort 0 0 1280 720;
   call_OnXYZijAvailable example_cloud;
   call_Render mat4_identity].

Definition calls_without_texture : list Call :=
  [call_SetupViewPort 0 0 1280 720;
   call_OnFrameAvailable stale_storage frame_4x2;
   call_Render mat4_identity;
   call_SetCameraType kTopDown;
   call_OnXYZijAvailable example_cloud;
   call_OnFrameAvailable stale_storage frame_4x4;
   call_Render mat4_identity].

(** A device pose: a translation by (1, 2, 3); [m[3]] is its fourth
    column. *)
Definition example_pose : mat4 :=
  [[1; 0; 0; 0]; [0; 1; 0; 0]; [0; 0; 1; 0]; [1; 2; 3; 1]]%float.

(** * Properties *)

(** ** The colour conversion *)

(** Where C++ defines the three casts, the result of [Yuv2Rgb] does not
    depend on the target. *)
Lemma double_to_uint8_in_range cast1 cast2 d z :
  double_trunc d = Some z → (0 ≤ z ≤ 255)%Z →
  double_to_uint8 cast1 d = z ∧ double_to_uint8 cast2 d = z.
Proof.
  intros Ht Hz. unfold double_to_uint8. rewrite Ht.
  destruct (Z.leb_spec 0 z); [|lia]. destruct (Z.leb_spec z 255); [|lia].
  split; reflexivity.
Qed.

(** Grey stays grey: with both chroma bytes at 128 the three channels are
    the luma byte. *)
Lemma Yuv2Rgb_grey cast :
  Forall (λ y, Yuv2Rgb cast y 128 128 = (y, y, y)) (Z.of_nat <$> seq 0 256).
Proof.
  apply Forall_forall. intros y Hy.
  apply list_elem_of_In, in_map_iff in Hy. destruct Hy as (n & <- & Hn).
  apply in_seq in Hn.
  assert (Hcast : ∀ k, k < 256 →
            double_to_uint8 cast (Z2double (Z.of_nat k) + 0)%float = Z.of_nat k
            ∧ double_to_uint8 cast (Z2double (Z.of_nat k) - 0 - 0)%float
              = Z.of_nat k).
  { intros k Hk.
    assert (Hall : forallb
              (λ k, match double_trunc (Z2double (Z.of_nat k) + 0)%float,
                          double_trunc (Z2double (Z.of_nat k) - 0 - 0)%float with
                    | Some a, Some b =>
                        (a =? Z.of_nat k)%Z && (b =? Z.of_nat k)%Z
                    | _, _ => false
                    end) (seq 0 256) = true) by (vm_compute; reflexivity).
    rewrite forallb_forall in Hall. specialize (Hall k).
    rewrite in_seq in Hall. specialize (Hall ltac:(lia)).
    destruct (double_trunc (Z2double (Z.of_nat k) + 0)%float) as [a|] eqn:Ea;
      [|discriminate].
    destruct (double_trunc (Z2double (Z.of_nat k) - 0 - 0)%float) as [b|] eqn:Eb;
      [|discriminate].
    apply andb_prop in Hall. destruct Hall as [Ha Hb].
    apply Z.eqb_eq in Ha, Hb. subst a b.
    split; eapply (double_to_uint8_in_range cast cast); eauto; lia. }
  destruct (Hcast n ltac:(lia)) as [H1 H2].
  unfold Yuv2Rgb.
  change (Z2double (128 - 128)) with 0%float.
  change (1.370705 * 0)%float with 0%float.
  change (0.698001 * 0)%float with 0%float.
  change (0.337633 * 0)%float with 0%float.
  change (1.732446 * 0)%float with 0%float.
  rewrite H1, H2. reflexivity.
Qed.

(** Outside the range of a byte the source decides nothing: the same call
    gives 7 for green on a target that keeps the low byte of 263 and 255 on
    one that saturates. *)
Example Yuv2Rgb_out_of_range :
  Yuv2Rgb low_byte_cast 200 100 50 = (93, 7, 151)%Z ∧
  Yuv2Rgb (λ d, if (d <? 0)%float then 0 else 255)%Z 200 100 50
    = (93, 255, 151)%Z.
Proof. split; vm_compute; reflexivity. Qed.

Lemma elem_of_bytes z : (0 ≤ z ≤ 255)%Z → z ∈ bytes.
Proof.
  intros Hz. unfold bytes. apply list_elem_of_fmap.
  exists (Z.to_nat z). split; [lia|]. apply list_elem_of_In, in_seq. lia.
Qed.

(** For all bytes, by evaluation of the 65536 pairs: the [double]s computed
    for red and for blue truncate to the exact decimal values. *)
Lemma red_blue_agree_all y c :
  (0 ≤ y ≤ 255)%Z → (0 ≤ c ≤ 255)%Z →
  double_trunc (Z2double y + 1.370705 * Z2double (c - 128))%float
    = Some (exact_red y c) ∧
  double_trunc (Z2double y + 1.732446 * Z2double (c - 128))%float
    = Some (exact_blue y c).
Proof.
  intros Hy Hc.
  assert (Hall : forallb (λ y, forallb (red_blue_agree y) bytes) bytes = true)
    by (vm_compute; reflexivity).
  rewrite forallb_forall in Hall.
  specialize (Hall y (proj1 (list_elem_of_In _ _) (elem_of_bytes y Hy))).
  rewrite forallb_forall in Hall.
  specialize (Hall c (proj1 (list_elem_of_In _ _) (elem_of_bytes c Hc))).
  unfold red_blue_agree in Hall.
  destruct (double_trunc (Z2double y + 1.370705 * Z2double (c - 128))%float)
    as [r|]; [|discriminate].
  destruct (double_trunc (Z2double y + 1.732446 * Z2double (c - 128))%float)
    as [b|]; [|discriminate].
  apply andb_prop in Hall. destruct Hall as [Hr Hb].
  apply Z.eqb_eq in Hr, Hb. subst. split; reflexivity.
Qed.

(** Red and blue are the exact values [Y + 1.370705 * (V - 128)] and
    [Y + 1.732446 * (U - 128)], truncated toward zero: as they are on every
    target when they fit a byte, and modulo 256 on a target that keeps the
    low byte.  (Green would take the evaluation of all 2^24 triples.) *)
Lemma Yuv2Rgb_red_blue_exact cast yValue uValue vValue :
  (0 ≤ yValue ≤ 255)%Z → (0 ≤ uValue ≤ 255)%Z → (0 ≤ vValue ≤ 255)%Z →
  ((0 ≤ exact_red yValue vValue ≤ 255)%Z →
   (Yuv2Rgb cast yValue uValue vValue).1.1 = exact_red yValue vValue) ∧
  ((0 ≤ exact_blue yValue uValue ≤ 255)%Z →
   (Yuv2Rgb cast yValue uValue vValue).2 = exact_blue yValue uValue) ∧
  ((∀ d, cast d = low_byte_cast d) →
   (Yuv2Rgb cast yValue uValue vValue).1.1
     = (exact_red yValue vValue mod 256)%Z ∧
   (Yuv2Rgb cast yValue uValue vValue).2
     = (exact_blue yValue uValue mod 256)%Z).
Proof.
  intros Hy Hu Hv.
  destruct (red_blue_agree_all yValue vValue Hy Hv) as [Hr _].
  destruct (red_blue_agree_all yValue uValue Hy Hu) as [_ Hb].
  unfold Yuv2Rgb. cbn [fst snd]. split; [|split].
  - intros Hin. apply (double_to_uint8_in_range cast cast _ _ Hr Hin).
  - intros Hin. apply (double_to_uint8_in_range cast cast _ _ Hb Hin).
  - intros Hcast. unfold double_to_uint8. rewrite Hr, Hb, !Hcast.
    unfold low_byte_cast. rewrite Hr, Hb.
    split.
    + destruct (Z.leb_spec 0 (exact_red yValue vValue)); [|reflexivity].
      destruct (Z.leb_spec (exact_red yValue vValue) 255); [|reflexivity].
      cbn [andb]. symmetry. apply Z.mod_small. lia.
    + destruct (Z.leb_spec 0 (exact_blue yValue uValue)); [|reflexivity].
      destruct (Z.leb_spec (exact_blue yValue uValue) 255); [|reflexivity].
      cbn [andb]. symmetry. apply Z.mod_small. lia.
Qed.

Lemma Yuv2Rgb_red_blue_exact_witness :
  exact_red 10 100 = (-28)%Z ∧ exact_blue 10 110 = (-21)%Z ∧
  (Yuv2Rgb low_byte_cast 10 110 100).1.1 = 228%Z ∧
  (Yuv2Rgb low_byte_cast 10 110 100).2 = 235%Z.
Proof.
  split; [reflexivity|]. split; [reflexivity|].
  destruct (Yuv2Rgb_red_blue_exact low_byte_cast 10 110 100)
    as (_ & _ & H); [lia|lia|lia|].
  destruct (H (λ d, eq_refl)) as [Hr Hb]. rewrite Hr, Hb.
  split; reflexivity.
Defined.

(** C2, as the code has it.  For every triple of bytes [Yuv2Rgb] computes
    [Y + 1.370705 * (V - 128)],
    [Y - 0.698001 * (V - 128) - 0.337633 * (U - 128)] and
    [Y + 1.732446 * (U - 128)] in [double] (red and blue truncate to the
    exact decimal values) and converts each to a byte, with no clamping and
    no reduction of its own.  A value that truncates into 0..255 is stored
    as truncated, on every target; for any other value the stored byte is
    the target's conversion of the [double], which C++ leaves undefined. *)
Theorem Yuv2Rgb_stores_truncated_or_target_value
    cast yValue uValue vValue green :
  (0 ≤ yValue ≤ 255)%Z → (0 ≤ uValue ≤ 255)%Z → (0 ≤ vValue ≤ 255)%Z →
  double_trunc (Z2double yValue - 0.698001 * Z2double (vValue - 128)
                - 0.337633 * Z2double (uValue - 128))%float = Some green →
  Yuv2Rgb cast yValue uValue vValue =
    (if in_byte (exact_red yValue vValue) then exact_red yValue vValue
     else cast (Z2double yValue + 1.370705 * Z2double (vValue - 128))%float,
     if in_byte green then green
     else cast (Z2double yValue - 0.698001 * Z2double (vValue - 128)
                - 0.337633 * Z2double (uValue - 128))%float,
     if in_byte (exact_blue yValue uValue) then exact_blue yValue uValue
     else cast (Z2double yValue + 1.732446 * Z2double (uValue - 128))%float).
Proof.
  intros Hy Hu Hv Hg.
  destruct (red_blue_agree_all yValue vValue Hy Hv) as [Hr _].
  destruct (red_blue_agree_all yValue uValue Hy Hu) as [_ Hb].
  unfold Yuv2Rgb, double_to_uint8, in_byte. rewrite Hr, Hg, Hb. reflexivity.
Qed.

Lemma Yuv2Rgb_stores_truncated_or_target_value_witness :
  double_trunc (Z2double 200 - 0.698001 * Z2double (50 - 128)
                - 0.337633 * Z2double (100 - 128))%float = Some 263%Z ∧
  exact_red 200 50 = 93%Z ∧ exact_blue 200 100 = 151%Z ∧
  Yuv2Rgb unsigned_saturating_cast 200 100 50 = (93, 7, 151)%Z.
Proof.
  assert (Hg : double_trunc (Z2double 200 - 0.698001 * Z2double (50 - 128)
                 - 0.337633 * Z2double (100 - 128))%float = Some 263%Z)
    by (vm_compute; reflexivity).
  split; [exact Hg|]. split; [reflexivity|]. split; [reflexivity|].
  rewrite (Yuv2Rgb_stores_truncated_or_target_value unsigned_saturating_cast
             200 100 50 263); [|lia|lia|lia|exact Hg].
  vm_compute. reflexivity.
Defined.

(** C2 as the spec states it fails where the conversion saturates.  For
    (Y, U, V) = (10, 110, 100) red is -28 and blue is -21: wrapped modulo 256
    they would be 228 and 235, as a target that keeps the low byte stores
    them; a target whose conversion saturates stores 0 and 0. *)
Lemma negative_value_is_not_wrapped_where_conversion_saturates :
  exact_red 10 100 = (-28)%Z ∧ exact_blue 10 110 = (-21)%Z ∧
  ((-28) mod 256 = 228)%Z ∧ ((-21) mod 256 = 235)%Z ∧
  Yuv2Rgb low_byte_cast 10 110 100 = (228, 35, 235)%Z ∧
  Yuv2Rgb unsigned_saturating_cast 10 110 100 = (0, 35, 0)%Z ∧
  Yuv2Rgb unsigned_saturating_cast 10 110 100 ≠ (228, 35, 235)%Z.
Proof.
  split; [reflexivity|]. split; [reflexivity|]. split; [reflexivity|].
  split; [reflexivity|]. split; [vm_compute; reflexivity|].
  assert (E : Yuv2Rgb unsigned_saturating_cast 10 110 100 = (0, 35, 0)%Z)
    by (vm_compute; reflexivity).
  split; [exact E|]. rewrite E. discriminate.
Qed.

(** ** Loops and writes *)

Lemma for_loop_S {S : Type} (n : nat) (body : nat → S → S) (s : S) :
  for_loop (Datatypes.S n) body s = body n (for_loop n body s).
Proof.
  unfold for_loop. rewrite seq_S, foldl_app. reflexivity.
Qed.

Lemma apply_writes_lookup {A : Type} (ws : list (nat * A)) (l : list A) k :
  apply_writes ws l !! k =
    match last_write k ws with
    | Some x => (λ _, x) <$> l !! k
    | None => l !! k
    end.
Proof.
  revert l. induction ws as [|[k0 x0] ws IH]; intros l; [reflexivity|].
  change (apply_writes ((k0, x0) :: ws) l) with (apply_writes ws (<[k0:=x0]> l)).
  rewrite IH. cbn [last_write fst snd].
  destruct (last_write k ws) as [x|].
  - destruct (decide (k0 = k)) as [->|Hne].
    + destruct (decide (k < length l)) as [Hlt|Hge].
      * rewrite list_lookup_insert_eq by exact Hlt.
        destruct (lookup_lt_is_Some_2 l k Hlt) as [y ->]. reflexivity.
      * rewrite list_insert_ge by lia. reflexivity.
    + rewrite list_lookup_insert_ne by exact Hne. reflexivity.
  - destruct (decide (k0 = k)) as [->|Hne].
    + destruct (decide (k < length l)) as [Hlt|Hge].
      * rewrite list_lookup_insert_eq by exact Hlt.
        destruct (lookup_lt_is_Some_2 l k Hlt) as [y ->]. reflexivity.
      * rewrite list_insert_ge by lia.
        rewrite (lookup_ge_None_2 l k) by lia. reflexivity.
    + rewrite list_lookup_insert_ne by exact Hne. reflexivity.
Qed.

Lemma apply_writes_idempotent {A : Type} (ws : list (nat * A)) (l : list A) :
  apply_writes ws (apply_writes ws l) = apply_writes ws l.
Proof.
  apply list_eq. intros k. rewrite !apply_writes_lookup.
  destruct (last_write k ws); [|reflexivity].
  destruct (l !! k); reflexivity.
Qed.

Lemma apply_writes_app {A : Type} (ws1 ws2 : list (nat * A)) (l : list A) :
  apply_writes (ws1 ++ ws2) l = apply_writes ws2 (apply_writes ws1 l).
Proof. unfold apply_writes. apply foldl_app. Qed.

Lemma last_write_app {A : Type} k (ws1 ws2 : list (nat * A)) :
  last_write k (ws1 ++ ws2) =
    match last_write k ws2 with
    | Some x => Some x
    | None => last_write k ws1
    end.
Proof.
  induction ws1 as [|w ws1 IH]; cbn [app last_write].
  - destruct (last_write k ws2); reflexivity.
  - rewrite IH. destruct (last_write k ws2); reflexivity.
Qed.

Lemma row_writes_S c g i w :
  row_writes c g i (S w) = row_writes c g i w ++ [(i * c + w, g w)].
Proof. unfold row_writes. rewrite seq_S, fmap_app. reflexivity. Qed.

Lemma frame_writes_S c f h w :
  frame_writes c f (S h) w = frame_writes c f h w ++ row_writes c (f h) h w.
Proof.
  unfold frame_writes. rewrite seq_S, flat_map_app. cbn [flat_map].
  rewrite app_nil_r. reflexivity.
Qed.

(** The inner loop of the conversion is the run of the writes of one row. *)
Lemma row_loop_writes (m : Mat) (g : nat → Vec3b) (i w : nat) :
  for_loop w (λ j frame, Mat_set frame i j (g j)) m =
    {| rows := rows m; cols := cols m;
       pixels := apply_writes (row_writes (cols m) g i w) (pixels m) |}.
Proof.
  induction w as [|w IH].
  - destruct m; reflexivity.
  - rewrite for_loop_S, IH, row_writes_S, apply_writes_app. reflexivity.
Qed.

(** Both loops are the run of the writes of all rows. *)
Lemma frame_loop_writes (m : Mat) (f : nat → nat → Vec3b) (h w : nat) :
  for_loop h (λ i, for_loop w (λ j frame, Mat_set frame i j (f i j))) m =
    {| rows := rows m; cols := cols m;
       pixels := apply_writes (frame_writes (cols m) f h w) (pixels m) |}.
Proof.
  induction h as [|h IH].
  - destruct m; reflexivity.
  - rewrite for_loop_S, IH, row_loop_writes, frame_writes_S, apply_writes_app.
    reflexivity.
Qed.

Lemma last_write_row c g i w k :
  last_write k (row_writes c g i w) =
    if decide (i * c ≤ k < i * c + w) then Some (g (k - i * c)) else None.
Proof.
  induction w as [|w IH].
  - cbn. destruct (decide _) as [H|H]; [lia|reflexivity].
  - rewrite row_writes_S, last_write_app, IH. cbn [last_write fst snd].
    destruct (decide (i * c + w = k)) as [<-|Hne].
    + rewrite decide_True by lia. f_equal. f_equal. lia.
    + destruct (decide (i * c ≤ k < i * c + w)) as [H|H].
      * rewrite decide_True by lia. reflexivity.
      * rewrite decide_False by lia. reflexivity.
Qed.

Lemma last_write_frame c f h w i j :
  w ≤ c → i < h → j < w →
  last_write (i * c + j) (frame_writes c f h w) = Some (f i j).
Proof.
  intros Hc Hi Hj. induction h as [|h IH]; [lia|].
  rewrite frame_writes_S, last_write_app, last_write_row.
  destruct (decide (i = h)) as [->|Hne].
  - rewrite decide_True by lia. f_equal. f_equal. lia.
  - rewrite decide_False by nia. apply IH. lia.
Qed.

(** ** The conversion of the active slot *)

Lemma ConvertYuvToRGBMat_run cast s :
  ConvertYuvToRGBMat cast s =
    (Some (tt, with_video (convert_frame cast) (with_video swap_buffers s)), []).
Proof. reflexivity. Qed.

Lemma swap_buffers_signal v : swap_buffer_signal_ (swap_buffers v) = false.
Proof.
  unfold swap_buffers. destruct (swap_buffer_signal_ v) eqn:E; [reflexivity|exact E].
Qed.

Lemma swap_buffers_no_signal v :
  swap_buffer_signal_ v = false → swap_buffers v = v.
Proof. unfold swap_buffers. intros ->. reflexivity. Qed.

(** [convert_frame] writes [rgb_frame] only, and what it writes is the run
    of the writes [rgb_dot v i j] at [(i, j)]. *)
Lemma convert_frame_writes cast v :
  convert_frame cast v =
    set_rgb_frame
      {| rows := rows (rgb_frame v); cols := cols (rgb_frame v);
         pixels :=
           apply_writes
             (frame_writes (cols (rgb_frame v)) (rgb_dot cast v)
                (yuv_height_ v) (yuv_width_ v))
             (pixels (rgb_frame v)) |}
      v.
Proof. unfold convert_frame. rewrite frame_loop_writes. reflexivity. Qed.

Lemma convert_frame_set_rgb_frame cast m v :
  convert_frame cast (set_rgb_frame m v) =
    set_rgb_frame
      {| rows := rows m; cols := cols m;
         pixels :=
           apply_writes
             (frame_writes (cols m) (rgb_dot cast v)
                (yuv_height_ v) (yuv_width_ v))
             (pixels m) |}
      v.
Proof. rewrite convert_frame_writes. reflexivity. Qed.

Lemma convert_frame_idempotent cast v :
  convert_frame cast (convert_frame cast v) = convert_frame cast v.
Proof.
  rewrite (convert_frame_writes cast v), convert_frame_set_rgb_frame.
  cbn [rows cols pixels]. rewrite apply_writes_idempotent. reflexivity.
Qed.

(** C3.  Two calls of [ConvertYuvToRGBMat] with no [OnFrameAvailable] in
    between: both end, the first leaves the swap signal cleared, the second
    exchanges no slots (both slots are as the first call left them) and
    leaves in [rgb_frame] the very image the first call produced. *)
Theorem ConvertYuvToRGBMat_twice_same_rgb cast s :
  ∃ s1 s2,
    ConvertYuvToRGBMat cast s = (Some (tt, s1), []) ∧
    ConvertYuvToRGBMat cast s1 = (Some (tt, s2), []) ∧
    swap_buffer_signal_ (video s1) = false ∧
    yuv_buffer_ (video s2) = yuv_buffer_ (video s1) ∧
    yuv_temp_buffer_ (video s2) = yuv_temp_buffer_ (video s1) ∧
    rgb_frame (video s2) = rgb_frame (video s1).
Proof.
  eexists _, _. split; [apply ConvertYuvToRGBMat_run|].
  split; [apply ConvertYuvToRGBMat_run|].
  assert (Hsig : swap_buffer_signal_
            (video (with_video (convert_frame cast) (with_video swap_buffers s)))
          = false).
  { cbn. apply swap_buffers_signal. }
  split; [exact Hsig|].
  cbn [video with_video] in *.
  rewrite (swap_buffers_no_signal _ Hsig).
  rewrite convert_frame_idempotent. auto.
Qed.

Lemma swap_buffers_rgb_frame v : rgb_frame (swap_buffers v) = rgb_frame v.
Proof. unfold swap_buffers. destruct (swap_buffer_signal_ v); reflexivity. Qed.

Lemma swap_buffers_yuv_width_ v : yuv_width_ (swap_buffers v) = yuv_width_ v.
Proof. unfold swap_buffers. destruct (swap_buffer_signal_ v); reflexivity. Qed.

Lemma swap_buffers_yuv_height_ v : yuv_height_ (swap_buffers v) = yuv_height_ v.
Proof. unfold swap_buffers. destruct (swap_buffer_signal_ v); reflexivity. Qed.

(** After the loops, the pixel at [(i, j)] of a frame of the latched size is
    [rgb_dot v i j]. *)
Lemma convert_frame_pixel cast v i j :
  cols (rgb_frame v) = yuv_width_ v →
  yuv_height_ v * yuv_width_ v ≤ length (pixels (rgb_frame v)) →
  i < yuv_height_ v → j < yuv_width_ v →
  Mat_at (rgb_frame (convert_frame cast v)) i j = Some (rgb_dot cast v i j).
Proof.
  intros Hc Hlen Hi Hj. rewrite convert_frame_writes.
  unfold Mat_at. cbn [rgb_frame set_rgb_frame cols pixels].
  rewrite apply_writes_lookup, last_write_frame by lia.
  destruct (lookup_lt_is_Some_2 (pixels (rgb_frame v))
              (i * cols (rgb_frame v) + j)) as [x ->]; [nia|reflexivity].
Qed.

Lemma x_index_odd j : j mod 2 = 1 → x_index j = j - 1.
Proof.
  intros H. unfold x_index. rewrite H. reflexivity.
Qed.

Lemma x_index_even j : j mod 2 = 0 → x_index j = j.
Proof.
  intros H. unfold x_index. rewrite H. reflexivity.
Qed.

(** C1.  In the image [ConvertYuvToRGBMat] produces, the pixel of an odd
    column [j] of row [i] is [Yuv2Rgb] of its own luma byte and of the very
    chroma bytes (U at [pair + 1], V at [pair]) that give the pixel of
    column [j - 1]: both columns read the pair of column [j - 1], nothing is
    interpolated. *)
Theorem odd_column_reuses_chroma_pair cast s i j :
  cols (rgb_frame (video s)) = yuv_width_ (video s) →
  yuv_height_ (video s) * yuv_width_ (video s)
    ≤ length (pixels (rgb_frame (video s))) →
  i < yuv_height_ (video s) →
  j < yuv_width_ (video s) →
  j mod 2 = 1 →
  ∃ s',
    ConvertYuvToRGBMat cast s = (Some (tt, s'), []) ∧
    x_index j = x_index (j - 1) ∧
    let yuv := yuv_buffer_ (video s') in
    let w := yuv_width_ (video s') in
    let pair := uv_buffer_offset_ (video s') + (i / 2) * w + (j - 1) in
    Mat_at (rgb_frame (video s')) i (j - 1) =
      Some (Yuv2Rgb cast (read yuv (i * w + (j - 1)))
              (read yuv (pair + 1)) (read yuv pair)) ∧
    Mat_at (rgb_frame (video s')) i j =
      Some (Yuv2Rgb cast (read yuv (i * w + j))
              (read yuv (pair + 1)) (read yuv pair)).
Proof.
  intros Hc Hlen Hi Hj Hodd.
  eexists. split; [apply ConvertYuvToRGBMat_run|].
  assert (Hprev : (j - 1) mod 2 = 0).
  { pose proof (Nat.div_mod_eq j 2) as Hj2.
    replace (j - 1) with ((j / 2) * 2) by lia. apply Nat.Div0.mod_mul. }
  split; [rewrite (x_index_odd j Hodd), (x_index_even _ Hprev); reflexivity|].
  cbn [video with_video].
  set (v1 := swap_buffers (video s)).
  assert (Hc1 : cols (rgb_frame v1) = yuv_width_ v1).
  { unfold v1. rewrite swap_buffers_rgb_frame, swap_buffers_yuv_width_. exact Hc. }
  assert (Hlen1 : yuv_height_ v1 * yuv_width_ v1 ≤ length (pixels (rgb_frame v1))).
  { unfold v1.
    rewrite swap_buffers_rgb_frame, swap_buffers_yuv_width_,
      swap_buffers_yuv_height_. exact Hlen. }
  assert (Hi1 : i < yuv_height_ v1).
  { unfold v1. rewrite swap_buffers_yuv_height_. exact Hi. }
  assert (Hj1 : j < yuv_width_ v1).
  { unfold v1. rewrite swap_buffers_yuv_width_. exact Hj. }
  cbv zeta. split.
  - rewrite convert_frame_pixel by (try assumption; lia).
    unfold rgb_dot. rewrite (x_index_even _ Hprev). reflexivity.
  - rewrite convert_frame_pixel by assumption.
    unfold rgb_dot. rewrite (x_index_odd _ Hodd). reflexivity.
Qed.

Lemma odd_column_reuses_chroma_pair_witness :
  ∃ s',
    ConvertYuvToRGBMat low_byte_cast delivered_scene = (Some (tt, s'), []) ∧
    Mat_at (rgb_frame (video s')) 0 0 = Some (228, 35, 235)%Z ∧
    Mat_at (rgb_frame (video s')) 0 1 = Some (238, 45, 245)%Z.
Proof.
  destruct (odd_column_reuses_chroma_pair low_byte_cast delivered_scene 0 1)
    as (s' & Hrun & _ & H0 & H1).
  - vm_compute. reflexivity.
  - vm_compute. lia.
  - vm_compute. lia.
  - vm_compute. lia.
  - reflexivity.
  - exists s'. split; [exact Hrun|].
    assert (Hs : s' = state_after (ConvertYuvToRGBMat low_byte_cast) delivered_scene).
    { unfold state_after. rewrite Hrun. reflexivity. }
    rewrite Hs. vm_compute. split; reflexivity.
Defined.

(** For a frame of even width and height, every read of the conversion
    loop is inside the buffer of [yuv_size_] bytes. *)
Lemma chroma_reads_in_bounds w h i j :
  w mod 2 = 0 → h mod 2 = 0 → i < h → j < w →
  i * w + j < w * h + w * h / 2 ∧
  w * h + (i / 2) * w + x_index j + 1 < w * h + w * h / 2.
Proof.
  intros Hw Hh Hi Hj.
  pose proof (Nat.div_mod_eq w 2) as Ew. pose proof (Nat.div_mod_eq h 2) as Eh.
  pose proof (Nat.div_mod_eq i 2) as Ei. pose proof (Nat.div_mod_eq j 2) as Ej.
  pose proof (Nat.mod_upper_bound i 2 ltac:(lia)) as Bi.
  pose proof (Nat.mod_upper_bound j 2 ltac:(lia)) as Bj.
  set (hh := h / 2) in *. set (ww := w / 2) in *.
  set (ii := i / 2) in *. set (jj := j / 2) in *.
  assert (Hhalf : w * h / 2 = w * hh).
  { replace (w * h) with ((w * hh) * 2) by lia. apply Nat.div_mul. lia. }
  rewrite Hhalf.
  assert (Hx : x_index j + 1 < w).
  { unfold x_index. destruct (j mod 2) as [|[|k]] eqn:Em; cbn [Nat.eqb negb]; lia. }
  split; [nia|].
  assert (ii + 1 ≤ hh) by lia. nia.
Qed.

Lemma chroma_reads_in_bounds_witness :
  1 * 4 + 3 < 4 * 2 + 4 * 2 / 2 ∧
  4 * 2 + (1 / 2) * 4 + x_index 3 + 1 < 4 * 2 + 4 * 2 / 2.
Proof.
  apply (chroma_reads_in_bounds 4 2 1 3); [reflexivity|reflexivity|lia|lia].
Defined.

(** In a latched store the image has the latched size. *)
Lemma latched_to_image w h v :
  latched_to w h v →
  cols (rgb_frame v) = yuv_width_ v ∧
  yuv_height_ v * yuv_width_ v ≤ length (pixels (rgb_frame v)).
Proof.
  unfold latched_to. intros (_ & -> & -> & _ & _ & _ & _ & _ & _ & -> & ->).
  split; [reflexivity|lia].
Qed.

(** ** Frame delivery *)

(** Running the monad: the binds and the elementary steps are unfolded,
    nothing else. *)
Ltac run_op :=
  unfold mbind, mret;
  cbn [Op_bind Op_ret gets modify emit undefined_behaviour negb app].

(** C10.  With the texture id of the video quad equal to 0, [OnFrameAvailable]
    logs and returns: the scene is the one it was called on (no size latched,
    no buffer allocated, no byte copied, no swap announced) and the log line
    is the only call made. *)
Theorem OnFrameAvailable_without_texture storage buffer s :
  texture_id (yuv_drawable_ (drawables s)) = 0%Z →
  OnFrameAvailable storage buffer s =
    (Some (tt, s), [LOGE "yuv texture id not valid" []]).
Proof.
  intros H. unfold OnFrameAvailable. run_op. rewrite H. reflexivity.
Qed.

Lemma OnFrameAvailable_without_texture_witness :
  texture_id (yuv_drawable_ (drawables unset_scene)) = 0%Z ∧
  OnFrameAvailable stale_storage frame_4x2 unset_scene =
    (Some (tt, unset_scene), [LOGE "yuv texture id not valid" []]).
Proof.
  split; [reflexivity|].
  apply (OnFrameAvailable_without_texture stale_storage frame_4x2
           unset_scene).
  reflexivity.
Defined.

(** A frame of another format is refused in the same way. *)
Lemma OnFrameAvailable_other_format storage buffer s :
  texture_id (yuv_drawable_ (drawables s)) ≠ 0%Z →
  format buffer ≠ TANGO_HAL_PIXEL_FORMAT_YCrCb_420_SP →
  OnFrameAvailable storage buffer s =
    (Some (tt, s), [LOGE "yuv texture format is not supported by this app" []]).
Proof.
  intros Ht Hf. unfold OnFrameAvailable. run_op.
  destruct (Z.eqb_spec (texture_id (yuv_drawable_ (drawables s))) 0); [contradiction|].
  destruct (Z.eqb_spec (format buffer) TANGO_HAL_PIXEL_FORMAT_YCrCb_420_SP);
    [contradiction|].
  reflexivity.
Qed.

Lemma OnFrameAvailable_other_format_witness :
  OnFrameAvailable stale_storage
    {| width := 4; height := 2; format := 1; data := [] |} ready_scene =
    (Some (tt, ready_scene),
     [LOGE "yuv texture format is not supported by this app" []]).
Proof.
  apply (OnFrameAvailable_other_format stale_storage
           {| width := 4; height := 2; format := 1; data := [] |} ready_scene);
    vm_compute; discriminate.
Defined.

(** The first accepted frame: the size is latched, the buffers are
    allocated, and the frame is copied to the pending slot. *)
Lemma OnFrameAvailable_first storage buffer s bytes :
  texture_id (yuv_drawable_ (drawables s)) ≠ 0%Z →
  format buffer = TANGO_HAL_PIXEL_FORMAT_YCrCb_420_SP →
  is_yuv_texture_available_ (video s) = false →
  memcpy (yuv_temp_buffer_ (reserve_buffers storage
            (latch_size (width buffer) (height buffer) (video s))))
    (data buffer) (width buffer * height buffer + width buffer * height buffer / 2)
    = Some bytes →
  OnFrameAvailable storage buffer s =
    (Some (tt,
       with_video
         (λ v, store_pending bytes
                 (set_is_yuv_texture_available_ true
                    (reserve_buffers storage
                       (latch_size (width buffer) (height buffer) v))))
         s),
     [LOGE "%d %d" [Z.of_nat (width buffer); Z.of_nat (height buffer)];
      glBindTexture GL_TEXTURE_2D (texture_id (yuv_drawable_ (drawables s)));
      glTexImage2D GL_RGB (width buffer) (height buffer) GL_UNSIGNED_BYTE
        (Some (storage <$> seq 0 (height buffer * width buffer)))]).
Proof.
  intros Ht Hf Ha Hm. unfold OnFrameAvailable. run_op.
  destruct (Z.eqb_spec (texture_id (yuv_drawable_ (drawables s))) 0); [contradiction|].
  rewrite Hf, Z.eqb_refl. run_op. rewrite Ha. run_op.
  cbn [video with_video yuv_temp_buffer_ yuv_size_ set_is_yuv_texture_available_
       reserve_buffers latch_size] in *.
  rewrite Hm. run_op. destruct s; reflexivity.
Qed.

(** A later frame: its [width] and [height] are not read; the latched
    number of bytes is copied from its data. *)
Lemma OnFrameAvailable_later storage buffer s :
  texture_id (yuv_drawable_ (drawables s)) ≠ 0%Z →
  format buffer = TANGO_HAL_PIXEL_FORMAT_YCrCb_420_SP →
  is_yuv_texture_available_ (video s) = true →
  OnFrameAvailable storage buffer s =
    match memcpy (yuv_temp_buffer_ (video s)) (data buffer) (yuv_size_ (video s)) with
    | Some bytes => (Some (tt, with_video (store_pending bytes) s), [])
    | None => (None, [])
    end.
Proof.
  intros Ht Hf Ha. unfold OnFrameAvailable. run_op.
  destruct (Z.eqb_spec (texture_id (yuv_drawable_ (drawables s))) 0); [contradiction|].
  rewrite Hf, Z.eqb_refl. run_op. rewrite Ha. run_op.
  destruct (memcpy _ _ _); reflexivity.
Qed.

Lemma memcpy_Some dst src n :
  n ≤ length src → length dst = n → memcpy dst src n = Some (take n src).
Proof.
  intros Hs Hd. unfold memcpy.
  destruct (Nat.leb_spec n (length src)); [|lia].
  destruct (Nat.leb_spec n (length dst)); [|lia].
  cbn [andb]. rewrite drop_ge by lia. rewrite app_nil_r. reflexivity.
Qed.

Lemma memcpy_short_source dst src n :
  length src < n → memcpy dst src n = None.
Proof.
  intros Hs. unfold memcpy.
  destruct (Nat.leb_spec n (length src)); [lia|reflexivity].
Qed.

(** A later frame that holds fewer bytes than the latched size: the copy
    runs past the end of its data, and nothing is logged before it does. *)
Lemma OnFrameAvailable_short_frame storage buffer s :
  texture_id (yuv_drawable_ (drawables s)) ≠ 0%Z →
  format buffer = TANGO_HAL_PIXEL_FORMAT_YCrCb_420_SP →
  is_yuv_texture_available_ (video s) = true →
  length (data buffer) < yuv_size_ (video s) →
  OnFrameAvailable storage buffer s = (None, []).
Proof.
  intros Ht Hf Ha Hd.
  rewrite (OnFrameAvailable_later storage buffer s Ht Hf Ha).
  rewrite memcpy_short_source by exact Hd. reflexivity.
Qed.

Lemma OnFrameAvailable_short_frame_witness :
  OnFrameAvailable stale_storage frame_2x2 delivered_scene = (None, []).
Proof.
  apply (OnFrameAvailable_short_frame stale_storage frame_2x2 delivered_scene).
  - vm_compute. discriminate.
  - reflexivity.
  - reflexivity.
  - vm_compute. lia.
Defined.

Lemma latched_to_store_pending w h bytes v :
  latched_to w h v → length bytes = w * h + w * h / 2 →
  latched_to w h (store_pending bytes v).
Proof.
  unfold latched_to. cbn [store_pending is_yuv_texture_available_ yuv_width_
    yuv_height_ uv_buffer_offset_ yuv_size_ yuv_buffer_ yuv_temp_buffer_
    rgb_buffer_ rgb_frame]. intuition.
Qed.

Lemma latched_to_first storage w h v :
  latched_to w h
    (set_is_yuv_texture_available_ true
       (reserve_buffers storage (latch_size w h v))).
Proof.
  unfold latched_to. cbn [set_is_yuv_texture_available_ reserve_buffers
    latch_size is_yuv_texture_available_ yuv_width_ yuv_height_
    uv_buffer_offset_ yuv_size_ yuv_buffer_ yuv_temp_buffer_ rgb_buffer_
    rgb_frame Mat_create rows cols pixels].
  rewrite !length_resize, length_fmap, length_seq. repeat split; reflexivity.
Qed.

(** C5, as the code has it.  The first accepted frame latches its width and
    height and allocates every buffer for them.  The next frame is not
    compared with the latched size: whatever width and height it announces,
    the latched number of bytes is copied from its data to the pending slot
    and the swap is announced; the latched size, the buffers' sizes, the
    active slot and the image are as they were.  (Both frames hold at least
    the latched number of bytes.) *)
Theorem OnFrameAvailable_latches_then_copies_latched_size
    storage storage' s first later :
  texture_id (yuv_drawable_ (drawables s)) ≠ 0%Z →
  is_yuv_texture_available_ (video s) = false →
  format first = TANGO_HAL_PIXEL_FORMAT_YCrCb_420_SP →
  format later = TANGO_HAL_PIXEL_FORMAT_YCrCb_420_SP →
  width first * height first + width first * height first / 2
    ≤ length (data first) →
  width first * height first + width first * height first / 2
    ≤ length (data later) →
  ∃ s1 s2,
    final_state (OnFrameAvailable storage first s) = Some s1 ∧
    latched_to (width first) (height first) (video s1) ∧
    yuv_temp_buffer_ (video s1) =
      take (width first * height first + width first * height first / 2)
        (data first) ∧
    swap_buffer_signal_ (video s1) = true ∧
    OnFrameAvailable storage' later s1 = (Some (tt, s2), []) ∧
    latched_to (width first) (height first) (video s2) ∧
    yuv_temp_buffer_ (video s2) =
      take (width first * height first + width first * height first / 2)
        (data later) ∧
    swap_buffer_signal_ (video s2) = true ∧
    yuv_buffer_ (video s2) = yuv_buffer_ (video s1) ∧
    rgb_frame (video s2) = rgb_frame (video s1).
Proof.
  intros Ht Ha Hf1 Hf2 Hd1 Hd2.
  set (size := width first * height first + width first * height first / 2) in *.
  pose proof (latched_to_first storage (width first) (height first) (video s))
    as L0.
  set (v0 := set_is_yuv_texture_available_ true
               (reserve_buffers storage
                  (latch_size (width first) (height first) (video s))))
    in *.
  assert (Hm1 : memcpy (yuv_temp_buffer_ (reserve_buffers storage
                  (latch_size (width first) (height first) (video s))))
                  (data first) size = Some (take size (data first))).
  { apply memcpy_Some; [exact Hd1|].
    cbn [reserve_buffers latch_size yuv_temp_buffer_ yuv_size_].
    apply length_resize. }
  pose proof (OnFrameAvailable_first storage first s _ Ht Hf1 Ha Hm1) as R1.
  set (s1 := with_video
               (λ v, store_pending (take size (data first))
                       (set_is_yuv_texture_available_ true
                          (reserve_buffers storage
                             (latch_size (width first) (height first) v)))) s)
    in *.
  assert (L1 : latched_to (width first) (height first) (video s1)).
  { cbn [s1 video with_video]. apply latched_to_store_pending; [exact L0|].
    rewrite length_take. fold size. lia. }
  assert (Ht1 : texture_id (yuv_drawable_ (drawables s1)) ≠ 0%Z) by exact Ht.
  assert (Ha1 : is_yuv_texture_available_ (video s1) = true) by reflexivity.
  pose proof (OnFrameAvailable_later storage' later s1 Ht1 Hf2 Ha1) as R2.
  destruct L1 as (L1a & L1w & L1h & L1o & L1s & L1b & L1t & L1r) .
  rewrite memcpy_Some in R2 by (rewrite ?L1s; fold size; lia).
  rewrite L1s in R2. fold size in R2.
  exists s1, (with_video (store_pending (take size (data later))) s1).
  split; [rewrite R1; reflexivity|].
  split; [unfold latched_to; fold size; tauto|].
  split; [reflexivity|]. split; [reflexivity|].
  split; [exact R2|].
  split.
  { cbn [video with_video]. apply latched_to_store_pending.
    - unfold latched_to; fold size; tauto.
    - rewrite length_take. fold size. lia. }
  repeat split; reflexivity.
Qed.

Lemma OnFrameAvailable_latches_then_copies_latched_size_witness :
  ∃ s1 s2,
    final_state (OnFrameAvailable stale_storage frame_4x2 ready_scene)
      = Some s1 ∧
    OnFrameAvailable stale_storage frame_4x4 s1 = (Some (tt, s2), []) ∧
    latched_to 4 2 (video s2) ∧
    yuv_temp_buffer_ (video s2) = [1; 2; 3; 4; 5; 6; 7; 8; 9; 10; 11; 12]%Z.
Proof.
  destruct (OnFrameAvailable_latches_then_copies_latched_size
              stale_storage stale_storage ready_scene frame_4x2 frame_4x4)
    as (s1 & s2 & H1 & _ & _ & _ & H2 & L2 & T2 & _).
  - vm_compute. discriminate.
  - reflexivity.
  - reflexivity.
  - reflexivity.
  - vm_compute. lia.
  - vm_compute. lia.
  - exists s1, s2. split; [exact H1|]. split; [exact H2|].
    split; [exact L2|exact T2].
Defined.

(** C5 as stated does not hold.  After the 4x2 frame, a 2x2 frame (6
    bytes) is not refused: no line is logged, and the copy of the latched 12
    bytes runs past the end of its data.  A 4x4 frame is not refused either:
    its first 12 bytes are stored as the pending 4x2 frame. *)
Lemma later_frame_of_another_size_is_not_refused :
  (yuv_width_ (video delivered_scene) = 4 ∧
   yuv_height_ (video delivered_scene) = 2 ∧
   yuv_size_ (video delivered_scene) = 12) ∧
  (width frame_2x2 = 2 ∧ length (data frame_2x2) = 6 ∧
   OnFrameAvailable stale_storage frame_2x2 delivered_scene = (None, []) ∧
   ¬ refused (OnFrameAvailable stale_storage frame_2x2 delivered_scene)
       delivered_scene) ∧
  (height frame_4x4 = 4 ∧
   OnFrameAvailable stale_storage frame_4x4 delivered_scene =
     (Some (tt, with_video
                  (store_pending [1; 2; 3; 4; 5; 6; 7; 8; 9; 10; 11; 12]%Z)
                  delivered_scene), []) ∧
   ¬ refused (OnFrameAvailable stale_storage frame_4x4 delivered_scene)
       delivered_scene).
Proof.
  split; [repeat split|]. split.
  - split; [reflexivity|]. split; [reflexivity|].
    assert (E : OnFrameAvailable stale_storage frame_2x2 delivered_scene
                = (None, []))
      by (vm_compute; reflexivity).
    split; [exact E|]. rewrite E. intros (m & a & H). discriminate H.
  - split; [reflexivity|].
    assert (E : OnFrameAvailable stale_storage frame_4x4 delivered_scene =
                (Some (tt, with_video
                  (store_pending [1; 2; 3; 4; 5; 6; 7; 8; 9; 10; 11; 12]%Z)
                  delivered_scene), []))
      by (vm_compute; reflexivity).
    split; [exact E|]. rewrite E. intros (m & a & H). discriminate H.
Qed.

(** ** A delivery during a conversion *)

Lemma run_steps_app cast l1 l2 v :
  run_steps cast (l1 ++ l2) v = run_steps cast l1 v ≫= run_steps cast l2.
Proof.
  revert v. induction l1 as [|st l1 IH]; intros v; [reflexivity|].
  cbn [app run_steps]. destruct (step cast st v) as [v1|]; [|reflexivity].
  apply IH.
Qed.

(** The steps of the consumer, run alone, are [ConvertYuvToRGBMat]. *)
Lemma run_pixel_row cast v i w :
  run_steps cast (consumer_pixel i <$> seq 0 w) v =
    Some (set_rgb_frame
            (for_loop w (λ j frame, Mat_set frame i j (rgb_dot cast v i j))
               (rgb_frame v)) v).
Proof.
  induction w as [|w IH].
  - destruct v; reflexivity.
  - rewrite seq_S, fmap_app, run_steps_app, IH, for_loop_S. reflexivity.
Qed.

Lemma run_pixel_steps cast v h w :
  run_steps cast (pixel_steps h w) v =
    Some (set_rgb_frame
            (for_loop h
               (λ i, for_loop w
                       (λ j frame, Mat_set frame i j (rgb_dot cast v i j)))
               (rgb_frame v)) v).
Proof.
  unfold pixel_steps. induction h as [|h IH].
  - destruct v; reflexivity.
  - rewrite seq_S, flat_map_app, run_steps_app, IH. cbn [flat_map].
    rewrite app_nil_r. cbn [mbind option_bind].
    rewrite run_pixel_row, for_loop_S. reflexivity.
Qed.

Lemma run_consumer_steps cast v :
  run_steps cast (consumer_steps (yuv_height_ v) (yuv_width_ v)) v =
    Some (convert_frame cast (swap_buffers v)).
Proof.
  unfold consumer_steps. cbn [run_steps step mbind option_bind].
  rewrite <- (swap_buffers_yuv_height_ v), <- (swap_buffers_yuv_width_ v).
  apply run_pixel_steps.
Qed.

Lemma ConvertYuvToRGBMat_steps cast s :
  ∃ v',
    run_steps cast
      (consumer_steps (yuv_height_ (video s)) (yuv_width_ (video s))) (video s)
      = Some v' ∧
    ConvertYuvToRGBMat cast s = (Some (tt, with_video (λ _, v') s), []).
Proof.
  eexists. split; [apply run_consumer_steps|].
  rewrite ConvertYuvToRGBMat_run. destruct s; reflexivity.
Qed.

(** The steps of the producer, run alone, are an [OnFrameAvailable] that
    passes its guards on an allocated store. *)
Lemma OnFrameAvailable_steps storage cast buffer s :
  texture_id (yuv_drawable_ (drawables s)) ≠ 0%Z →
  format buffer = TANGO_HAL_PIXEL_FORMAT_YCrCb_420_SP →
  is_yuv_texture_available_ (video s) = true →
  OnFrameAvailable storage buffer s =
    match run_steps cast (producer_steps (data buffer)) (video s) with
    | Some v' => (Some (tt, with_video (λ _, v') s), [])
    | None => (None, [])
    end.
Proof.
  intros Ht Hf Ha. rewrite (OnFrameAvailable_later storage buffer s Ht Hf Ha).
  unfold producer_steps. cbn [run_steps step mbind option_bind].
  destruct (memcpy _ _ _); reflexivity.
Qed.

Lemma OnFrameAvailable_steps_witness :
  OnFrameAvailable stale_storage frame_4x4 delivered_scene =
    match run_steps low_byte_cast (producer_steps (data frame_4x4))
            (video delivered_scene) with
    | Some v' => (Some (tt, with_video (λ _, v') delivered_scene), [])
    | None => (None, [])
    end.
Proof.
  apply (OnFrameAvailable_steps stale_storage low_byte_cast frame_4x4
           delivered_scene).
  - vm_compute. discriminate.
  - reflexivity.
  - reflexivity.
Defined.

(** A step of the producer writes the pending slot and the signal, nothing
    else. *)
Lemma producer_step_frame cast st v v' :
  is_producer st → step cast st v = Some v' →
  yuv_buffer_ v' = yuv_buffer_ v ∧
  rgb_frame v' = rgb_frame v ∧
  yuv_width_ v' = yuv_width_ v ∧
  yuv_height_ v' = yuv_height_ v ∧
  uv_buffer_offset_ v' = uv_buffer_offset_ v.
Proof.
  intros [->|[data ->]]; cbn [step].
  - intros [= <-]. tauto.
  - destruct (memcpy _ _ _); [|discriminate]. intros [= <-]. cbn. tauto.
Qed.

(** A step of the producer and a turn of the conversion loop can be
    exchanged. *)
Lemma producer_pixel_commute cast q p v :
  is_producer q → is_pixel p →
  step cast q v ≫= step cast p = step cast p v ≫= step cast q.
Proof.
  intros [->|[data ->]] (i & j & ->); cbn [step mbind option_bind];
    [reflexivity|].
  cbn [set_rgb_frame yuv_temp_buffer_ yuv_size_].
  destruct (memcpy _ _ _); reflexivity.
Qed.

Lemma pixel_step_defined cast p v : is_pixel p → is_Some (step cast p v).
Proof. intros (i & j & ->). eexists. reflexivity. Qed.

Lemma producer_pixels_commute cast q ps v :
  is_producer q → Forall is_pixel ps →
  step cast q v ≫= run_steps cast ps = run_steps cast ps v ≫= step cast q.
Proof.
  intros Hq Hps. revert v. induction Hps as [|p ps Hp _ IH]; intros v.
  - cbn [run_steps mbind option_bind]. destruct (step cast q v); reflexivity.
  - cbn [run_steps].
    destruct (pixel_step_defined cast p v Hp) as [v1 E1].
    rewrite E1. cbn [mbind option_bind]. rewrite <- IH.
    pose proof (producer_pixel_commute cast q p v Hq Hp) as C.
    rewrite E1 in C. cbn [mbind option_bind] in C.
    destruct (step cast q v) as [v2|]; cbn [mbind option_bind] in *.
    + rewrite C. reflexivity.
    + rewrite <- C. reflexivity.
Qed.

(** Once the slots are swapped, whatever the interleaving, the steps of the
    producer can be moved behind the turns of the loop. *)
Lemma interleaving_after_swap cast ps qs l v :
  interleaving ps qs l → Forall is_pixel ps → Forall is_producer qs →
  run_steps cast l v = run_steps cast ps v ≫= run_steps cast qs.
Proof.
  intros Hl. revert v.
  induction Hl as [|p ps qs l _ IH|q ps qs l _ IH]; intros v Hps Hqs.
  - reflexivity.
  - apply Forall_cons in Hps as [Hp Hps]. cbn [run_steps].
    destruct (pixel_step_defined cast p v Hp) as [v1 E1]. rewrite E1.
    cbn [mbind option_bind]. apply IH; assumption.
  - apply Forall_cons in Hqs as [Hq Hqs].
    change (run_steps cast (q :: l) v)
      with (step cast q v ≫= run_steps cast l).
    transitivity
      ((step cast q v ≫= run_steps cast ps) ≫= run_steps cast qs).
    + destruct (step cast q v) as [v1|]; cbn [mbind option_bind];
        [|reflexivity].
      apply IH; assumption.
    + rewrite producer_pixels_commute by assumption.
      destruct (run_steps cast ps v); reflexivity.
Qed.

Lemma interleaving_nil_r {A : Type} (l1 l : list A) :
  interleaving l1 [] l → l = l1.
Proof.
  intros H. remember [] as l2 eqn:E.
  induction H as [|x l1 l2 l _ IH|x l1 l2 l _ IH]; [reflexivity| |discriminate].
  rewrite IH by exact E. reflexivity.
Qed.

Lemma pixel_steps_are_pixels h w : Forall is_pixel (pixel_steps h w).
Proof.
  unfold pixel_steps. apply Forall_flat_map, Forall_forall. intros i _.
  apply Forall_fmap, Forall_forall. intros j _. exists i, j. reflexivity.
Qed.

Lemma producer_steps_are_producers data :
  Forall is_producer (producer_steps data).
Proof.
  unfold producer_steps. apply Forall_cons. split; [left; reflexivity|].
  apply Forall_cons. split; [right; eexists; reflexivity|apply Forall_nil_2].
Qed.

(** Every interleaving of a conversion with a delivery ends as one of the
    two runs in which one thread follows the other. *)
Lemma interleaving_is_sequential cast h w data l v :
  interleaving (consumer_steps h w) (producer_steps data) l →
  run_steps cast l v
    = run_steps cast (consumer_steps h w ++ producer_steps data) v ∨
  run_steps cast l v
    = run_steps cast (producer_steps data ++ consumer_steps h w) v.
Proof.
  intros Hl. pose proof (pixel_steps_are_pixels h w) as Hps.
  unfold consumer_steps, producer_steps in *.
  inversion Hl as [|x l1 l2 l' H1|x l1 l2 l' H1]; subst.
  - left.
    change (run_steps cast (consumer_swap :: l') v)
      with (run_steps cast l' (swap_buffers v)).
    rewrite (interleaving_after_swap cast _ _ _ _ H1 Hps
               (producer_steps_are_producers data)).
    change (run_steps cast ((consumer_swap :: ?k) ++ ?q) v)
      with (run_steps cast (k ++ q) (swap_buffers v)).
    rewrite run_steps_app. reflexivity.
  - inversion H1 as [|x l1 l2 l'' H2|x l1 l2 l'' H2]; subst.
    + left.
      change (run_steps cast (producer_guards :: consumer_swap :: l'') v)
        with (run_steps cast l'' (swap_buffers v)).
      assert (Hq : Forall is_producer [producer_store data]).
      { apply Forall_cons. split; [right; eexists; reflexivity|].
        apply Forall_nil_2. }
      rewrite (interleaving_after_swap cast _ _ _ _ H2 Hps Hq).
      change (run_steps cast ((consumer_swap :: ?k) ++ ?q) v)
        with (run_steps cast (k ++ q) (swap_buffers v)).
      rewrite run_steps_app.
      destruct (run_steps cast (pixel_steps h w) (swap_buffers v));
        reflexivity.
    + right. apply interleaving_nil_r in H2. subst l''. reflexivity.
Qed.

Lemma latched_to_swap_buffers w h v :
  latched_to w h v → latched_to w h (swap_buffers v).
Proof.
  unfold latched_to, swap_buffers. intros H.
  destruct (swap_buffer_signal_ v); [|exact H]. cbn. tauto.
Qed.

(** The image of a conversion is made of the bytes of the slot that is
    active after the swap. *)
Lemma converted_from_active_slot cast w h v i j :
  latched_to w h v → i < h → j < w →
  Mat_at (rgb_frame (convert_frame cast (swap_buffers v))) i j =
    Some (Yuv2Rgb cast
            (read (yuv_buffer_ (swap_buffers v)) (i * w + j))
            (read (yuv_buffer_ (swap_buffers v))
               (w * h + (i / 2) * w + x_index j + 1))
            (read (yuv_buffer_ (swap_buffers v))
               (w * h + (i / 2) * w + x_index j))).
Proof.
  intros L Hi Hj. apply latched_to_swap_buffers in L.
  destruct (latched_to_image _ _ _ L) as [Hc Hlen].
  destruct L as (_ & Hw & Hh & Ho & _).
  rewrite convert_frame_pixel
    by first [assumption | rewrite Hh; assumption | rewrite Hw; assumption].
  unfold rgb_dot. rewrite Hw, Ho. reflexivity.
Qed.

(** On a latched store, the delivery of a frame that holds the latched
    number of bytes is defined, and stores those bytes as the pending
    frame. *)
Lemma run_producer_steps cast w h data v :
  latched_to w h v → w * h + w * h / 2 ≤ length data →
  run_steps cast (producer_steps data) v
    = Some (store_pending (take (w * h + w * h / 2) data) v).
Proof.
  intros (_ & _ & _ & _ & Hs & _ & Ht & _) Hd.
  unfold producer_steps. cbn [run_steps step mbind option_bind].
  rewrite memcpy_Some by lia. rewrite Hs. reflexivity.
Qed.

Lemma latched_to_convert_frame cast w h v :
  latched_to w h v → latched_to w h (convert_frame cast v).
Proof.
  intros L. rewrite convert_frame_writes. unfold latched_to in *.
  cbn [set_rgb_frame is_yuv_texture_available_ yuv_width_ yuv_height_
       uv_buffer_offset_ yuv_size_ yuv_buffer_ yuv_temp_buffer_ rgb_buffer_
       rgb_frame rows cols pixels].
  destruct L as (? & ? & ? & ? & ? & ? & ? & ? & ? & ? & Hp).
  repeat split; try assumption.
  rewrite <- Hp. unfold apply_writes.
  generalize (pixels (rgb_frame v)).
  induction (frame_writes _ _ _ _) as [|x ws IH]; intros px; [reflexivity|].
  cbn [foldl]. rewrite IH. apply length_insert.
Qed.

(** C4.  A conversion and a delivery to an allocated store, interleaved in
    any way (the two critical sections and the turns of the conversion loop
    being the steps).  The run is defined: no copy leaves its blocks.  And
    - no step of the producer, wherever it falls, writes the active slot;
    - the store ends as if one call had run after the other;
    - the image is the conversion of one frame, byte for byte: the frame
      that was active, the frame that was pending, or the frame delivered,
      and that frame is the active slot at the end. *)
Theorem delivery_during_conversion_keeps_one_frame cast v w h data l :
  latched_to w h v →
  w * h + w * h / 2 ≤ length data →
  interleaving (consumer_steps h w) (producer_steps data) l →
  ∃ v',
    run_steps cast l v = Some v' ∧
    (∀ l1 st l2 v1 v2,
       l = l1 ++ st :: l2 → st ∈ producer_steps data →
       run_steps cast l1 v = Some v1 → step cast st v1 = Some v2 →
       yuv_buffer_ v2 = yuv_buffer_ v1) ∧
    (run_steps cast (consumer_steps h w ++ producer_steps data) v = Some v' ∨
     run_steps cast (producer_steps data ++ consumer_steps h w) v = Some v') ∧
    ∃ frame,
      (frame = yuv_buffer_ v ∨ frame = yuv_temp_buffer_ v ∨
       frame = take (w * h + w * h / 2) data) ∧
      yuv_buffer_ v' = frame ∧
      ∀ i j, i < h → j < w →
        Mat_at (rgb_frame v') i j =
          Some (Yuv2Rgb cast
                  (read frame (i * w + j))
                  (read frame (w * h + (i / 2) * w + x_index j + 1))
                  (read frame (w * h + (i / 2) * w + x_index j))).
Proof.
  intros L Hdata Hl.
  pose proof L as (_ & Hw & Hh & _).
  set (new := take (w * h + w * h / 2) data).
  assert (Hframe : ∀ l1 st l2 v1 v2,
            l = l1 ++ st :: l2 → st ∈ producer_steps data →
            run_steps cast l1 v = Some v1 → step cast st v1 = Some v2 →
            yuv_buffer_ v2 = yuv_buffer_ v1).
  { intros l1 st l2 v1 v2 _ Hst _ Hstep.
    pose proof (producer_steps_are_producers data) as Hp.
    rewrite Forall_forall in Hp.
    apply (producer_step_frame cast st v1 v2 (Hp st Hst) Hstep). }
  (* the two runs in which one call follows the other *)
  assert (Hafter : run_steps cast (consumer_steps h w ++ producer_steps data) v
                   = Some (store_pending new (convert_frame cast (swap_buffers v)))).
  { rewrite run_steps_app.
    replace (consumer_steps h w)
      with (consumer_steps (yuv_height_ v) (yuv_width_ v))
      by (rewrite Hh, Hw; reflexivity).
    rewrite run_consumer_steps. cbn [mbind option_bind].
    apply (run_producer_steps cast w h); [|exact Hdata].
    apply latched_to_convert_frame, latched_to_swap_buffers, L. }
  assert (L' : latched_to w h (store_pending new v)).
  { apply latched_to_store_pending; [exact L|].
    unfold new. rewrite length_take. lia. }
  assert (Hbefore : run_steps cast (producer_steps data ++ consumer_steps h w) v
                    = Some (convert_frame cast (swap_buffers (store_pending new v)))).
  { rewrite run_steps_app, (run_producer_steps cast w h data v L Hdata).
    cbn [mbind option_bind]. fold new.
    replace (consumer_steps h w)
      with (consumer_steps (yuv_height_ (store_pending new v))
              (yuv_width_ (store_pending new v)))
      by (cbn [store_pending yuv_height_ yuv_width_];
          rewrite Hh, Hw; reflexivity).
    apply run_consumer_steps. }
  destruct (interleaving_is_sequential cast h w data l v Hl) as [E|E].
  - (* the delivery follows the conversion *)
    exists (store_pending new (convert_frame cast (swap_buffers v))).
    split; [rewrite E; exact Hafter|]. split; [exact Hframe|].
    split; [left; exact Hafter|].
    exists (yuv_buffer_ (swap_buffers v)). split; [|split].
    + unfold swap_buffers. destruct (swap_buffer_signal_ v); cbn; tauto.
    + reflexivity.
    + intros i j Hi Hj.
      apply (converted_from_active_slot cast w h v i j L Hi Hj).
  - (* the delivery precedes the conversion *)
    exists (convert_frame cast (swap_buffers (store_pending new v))).
    split; [rewrite E; exact Hbefore|]. split; [exact Hframe|].
    split; [right; exact Hbefore|].
    exists new. split; [tauto|]. split; [reflexivity|].
    intros i j Hi Hj.
    apply (converted_from_active_slot cast w h _ i j L' Hi Hj).
Qed.

Lemma delivery_during_conversion_keeps_one_frame_witness :
  interleaving (consumer_steps 2 4) (producer_steps next_frame_data)
    delivery_in_mid_conversion ∧
  ∃ v',
    run_steps low_byte_cast delivery_in_mid_conversion (video delivered_scene)
      = Some v' ∧
    yuv_buffer_ v' = data frame_4x2 ∧
    yuv_temp_buffer_ v' = next_frame_data ∧
    Mat_at (rgb_frame v') 1 3 = Some (69, 84, 83)%Z.
Proof.
  assert (Hl : interleaving (consumer_steps 2 4) (producer_steps next_frame_data)
                 delivery_in_mid_conversion)
    by (unfold delivery_in_mid_conversion; repeat constructor).
  split; [exact Hl|].
  destruct (delivery_during_conversion_keeps_one_frame low_byte_cast
              (video delivered_scene) 4 2 next_frame_data
              delivery_in_mid_conversion)
    as (v' & Hrun & _ & _ & frame & _ & Hactive & Hpixel).
  - vm_compute. repeat split.
  - vm_compute. lia.
  - exact Hl.
  - exists v'. split; [exact Hrun|].
    assert (Hv : v' = default (video delivered_scene)
                        (run_steps low_byte_cast delivery_in_mid_conversion
                           (video delivered_scene))).
    { rewrite Hrun. reflexivity. }
    rewrite Hv. vm_compute. repeat split.
Defined.

(** ** The point-cloud store *)

Lemma for_loop_append {A : Type} (g : nat → list A) n :
  for_loop n (λ i acc, acc ++ g i) [] = flat_map g (seq 0 n).
Proof.
  induction n as [|n IH]; [reflexivity|].
  rewrite for_loop_S, IH, seq_S, flat_map_app. cbn [flat_map].
  rewrite app_nil_r. reflexivity.
Qed.

Lemma flat_map_lookup_seq {A B : Type} (g : A → list B) (d : A) (l : list A) :
  flat_map (λ i, g (default d (l !! i))) (seq 0 (length l)) = flat_map g l.
Proof.
  induction l as [|x l IH] using rev_ind; [reflexivity|].
  rewrite length_app, Nat.add_comm. cbn [length Nat.add].
  rewrite seq_S, !flat_map_app. cbn [flat_map]. rewrite !app_nil_r.
  rewrite Nat.add_0_l.
  rewrite (list_lookup_middle l [] x (length l)) by reflexivity.
  cbn [default]. f_equal. rewrite <- IH.
  rewrite !flat_map_concat_map. f_equal.
  apply map_ext_in. intros i Hi. apply in_seq in Hi.
  rewrite lookup_app_l by lia. reflexivity.
Qed.

Lemma OnXYZijAvailable_run XYZ_ij s :
  xyz_count XYZ_ij = Z.of_nat (length (xyz XYZ_ij)) →
  OnXYZijAvailable XYZ_ij s =
    (Some (tt, set_vertices (flat_map scaled_point (xyz XYZ_ij)) s), []).
Proof.
  intros H. unfold OnXYZijAvailable. rewrite H, Nat2Z.id.
  rewrite for_loop_append, flat_map_lookup_seq. reflexivity.
Qed.

Lemma OnXYZijAvailable_ends XYZ_ij s :
  ∃ points, OnXYZijAvailable XYZ_ij s = (Some (tt, set_vertices points s), []).
Proof. eexists. reflexivity. Qed.

(** C6.  After two deliveries, the point list the render pass reads is the
    second delivery's points, in their order, each as
    [x * 0.9; y * 1.2; z] (the products taken in [double] and stored as
    [float], [z] as delivered); nothing of the first delivery is in it. *)
Theorem OnXYZijAvailable_replaces_points s pointsA pointsB :
  xyz_count pointsB = Z.of_nat (length (xyz pointsB)) →
  ∃ sA sB,
    OnXYZijAvailable pointsA s = (Some (tt, sA), []) ∧
    OnXYZijAvailable pointsB sA = (Some (tt, sB), []) ∧
    fst (Snapshot sB) =
      flat_map
        (λ p, [double_to_float (p.1.1 * 0.9)%float;
               double_to_float (p.1.2 * 1.2)%float;
               p.2])
        (xyz pointsB).
Proof.
  intros HB. destruct (OnXYZijAvailable_ends pointsA s) as [pts HA].
  eexists _, _. split; [exact HA|].
  split; [apply OnXYZijAvailable_run; exact HB|].
  cbn [Snapshot fst vertices set_vertices].
  apply flat_map_ext. intros [[x y] z]. reflexivity.
Qed.

Lemma OnXYZijAvailable_replaces_points_witness :
  ∃ sA sB,
    OnXYZijAvailable {| xyz_count := 1; xyz := [(7, 8, 9)%float] |} unset_scene
      = (Some (tt, sA), []) ∧
    OnXYZijAvailable
      {| xyz_count := 2; xyz := [(1, 2, 3); (0.5, 0.25, -1)]%float |} sA
      = (Some (tt, sB), []) ∧
    fst (Snapshot sB) =
      [0.89999997615814209; 2.4000000953674316; 3;
       0.44999998807907104; 0.30000001192092896; -1]%float.
Proof.
  destruct (OnXYZijAvailable_replaces_points unset_scene
              {| xyz_count := 1; xyz := [(7, 8, 9)%float] |}
              {| xyz_count := 2; xyz := [(1, 2, 3); (0.5, 0.25, -1)]%float |})
    as (sA & sB & HA & HB & HS).
  - reflexivity.
  - exists sA, sB. split; [exact HA|]. split; [exact HB|].
    rewrite HS. vm_compute. reflexivity.
Defined.

(** ** The camera mode *)

Lemma bind_run {A B : Type} (m : Op A) (k : A → Op B) s a s' t r t' :
  m s = (Some (a, s'), t) → k a s' = (r, t') → (m ≫= k) s = (r, t ++ t').
Proof.
  intros Hm Hk. unfold mbind, Op_bind. rewrite Hm, Hk. reflexivity.
Qed.

Lemma SetCameraType_ends mode s :
  ∃ s', SetCameraType mode s = (Some (tt, s'), []).
Proof.
  unfold SetCameraType, on_camera, on_drawable. run_op.
  destruct mode; cbn [CameraType_eqb]; run_op; eexists; reflexivity.
Qed.

Lemma SetCameraTypes_ends modes s :
  ∃ s', SetCameraTypes modes s = (Some (tt, s'), []).
Proof.
  revert s. induction modes as [|mode modes IH]; intros s.
  - eexists. reflexivity.
  - destruct (SetCameraType_ends mode s) as [s1 H1].
    destruct (IH s1) as [s2 H2]. exists s2.
    change (SetCameraTypes (mode :: modes))
      with (SetCameraType mode ≫= λ _, SetCameraTypes modes).
    apply (bind_run _ _ _ _ _ _ _ _ H1 H2).
Qed.

Lemma SetCameraType_first_person s :
  ∃ s',
    SetCameraType kFirstPerson s = (Some (tt, s'), []) ∧
    parent (yuv_drawable_ (drawables s')) = None ∧
    scale (yuv_drawable_ (drawables s')) = (1, 1, 1)%float ∧
    position (yuv_drawable_ (drawables s')) = (0, 0, 0)%float ∧
    rotation (yuv_drawable_ (drawables s')) =
      {| qw := 1; qx := 0; qy := 0; qz := 0 |}%float.
Proof.
  unfold SetCameraType, on_camera, on_drawable. run_op.
  cbn [CameraType_eqb]. run_op. eexists. split; [reflexivity|].
  repeat split; reflexivity.
Qed.

(** C7.  Whatever mode changes were served before and whatever they left in
    the scene, a [SetCameraType(kFirstPerson)] leaves the video quad with no
    parent, scale (1, 1, 1), position (0, 0, 0) and the identity rotation
    [quat(1, 0, 0, 0)]. *)
Theorem SetCameraType_first_person_resets_video_overlay s modes :
  ∃ s',
    (SetCameraTypes modes ;; SetCameraType kFirstPerson) s
      = (Some (tt, s'), []) ∧
    parent (yuv_drawable_ (drawables s')) = None ∧
    scale (yuv_drawable_ (drawables s')) = (1, 1, 1)%float ∧
    position (yuv_drawable_ (drawables s')) = (0, 0, 0)%float ∧
    rotation (yuv_drawable_ (drawables s')) =
      {| qw := 1; qx := 0; qy := 0; qz := 0 |}%float.
Proof.
  destruct (SetCameraTypes_ends modes s) as [s1 H1].
  destruct (SetCameraType_first_person s1) as (s' & H2 & Hyuv).
  exists s'. split; [|exact Hyuv].
  apply (bind_run _ _ _ _ _ _ _ _ H1 H2).
Qed.

(** In the other modes the video quad hangs under the axis, at the image
    plane. *)
Lemma SetCameraType_third_person mode s :
  mode ≠ kFirstPerson →
  ∃ s',
    SetCameraType mode s = (Some (tt, s'), []) ∧
    parent (yuv_drawable_ (drawables s')) = Some axis_node ∧
    scale (yuv_drawable_ (drawables s')) =
      (1, camera_image_plane_ratio_ s, 1)%float ∧
    position (yuv_drawable_ (drawables s')) =
      (0, 0, float_neg (image_plane_distance_ s))%float.
Proof.
  intros Hmode. unfold SetCameraType, on_camera, on_drawable. run_op.
  destruct mode; [contradiction| |]; cbn [CameraType_eqb]; run_op;
    (eexists; split; [reflexivity|]; repeat split; reflexivity).
Qed.

Lemma SetCameraType_third_person_witness :
  ∃ s',
    SetCameraType kTopDown ready_scene = (Some (tt, s'), []) ∧
    parent (yuv_drawable_ (drawables s')) = Some axis_node ∧
    scale (yuv_drawable_ (drawables s')) = (1, 0.75, 1)%float ∧
    position (yuv_drawable_ (drawables s')) = (0, 0, -1)%float.
Proof.
  apply (SetCameraType_third_person kTopDown ready_scene). discriminate.
Defined.

(** ** The viewport *)

Lemma SetupViewPort_zero_height x y w s :
  SetupViewPort x y w 0 s =
    (Some (tt,
       with_drawables
         (update_camera
            (SetAspectRatio (float_div (int_to_float w) (int_to_float 0))))
         s),
     [LOGE "Setup graphic height not valid" []; glViewport x y w 0]).
Proof. reflexivity. Qed.

(** C9, at the failing input.  [SetupViewPort(0, 0, 1280, 0)] logs that the
    height is not valid and goes on: the aspect ratio of the camera, 1
    before the call, becomes 1280 / 0 = infinity, and the viewport
    [(0, 0, 1280, 0)] is applied. *)
Theorem SetupViewPort_zero_height_is_applied :
  ∃ s',
    SetupViewPort 0 0 1280 0 ready_scene =
      (Some (tt, s'),
       [LOGE "Setup graphic height not valid" []; glViewport 0 0 1280 0]) ∧
    aspect_ratio (gesture_camera_ (drawables ready_scene)) = 1%float ∧
    aspect_ratio (gesture_camera_ (drawables s')) = infinity ∧
    s' ≠ ready_scene.
Proof.
  eexists. split; [apply SetupViewPort_zero_height|].
  split; [reflexivity|]. split; [vm_compute; reflexivity|].
  intros E. apply (f_equal (λ s, aspect_ratio (gesture_camera_ (drawables s)))) in E.
  vm_compute in E. discriminate E.
Qed.

(** ** GL set-up and composition *)

Lemma with_status_same gl : with_status (framebuffer_status gl) gl = gl.
Proof. destruct gl; reflexivity. Qed.

(** [InitGLContent] ends in the same scene whatever the status of the
    auxiliary framebuffer is; the status only decides whether one line is
    logged after the check. *)
Lemma InitGLContent_run gl s :
  ∃ s',
    depth_frame_buffer_ s' = gen_framebuffer gl ∧
    ∀ status,
      InitGLContent (with_status status gl) s =
        (Some (tt, s'),
         target_setup_calls gl ++
         glCheckFramebufferStatus status ::
         (if (status =? GL_FRAMEBUFFER_COMPLETE)%Z then []
          else [LOGE "ERROR %d in fb %d " [gen_framebuffer gl]])).
Proof.
  eexists. split; [|intros status].
  2: { unfold InitGLContent, set_drawable, on_camera, on_drawable. run_op.
       cbn [with_status depth_frame_storage new_DepthDrawable new_YUVDrawable
            new_GestureCamera
            new_Axis new_Frustum new_Trace new_Grid new_Cube
            new_PointCloudDrawable gen_texture gen_framebuffer
            framebuffer_status].
       destruct (status =? GL_FRAMEBUFFER_COMPLETE)%Z; run_op; reflexivity. }
  reflexivity.
Qed.

(** Every [Render] of a scene that holds a frame runs the depth pass on
    [depth_frame_buffer_]: nothing is consulted before it. *)
Lemma Render_runs_depth_pass cast pose s :
  is_yuv_texture_available_ (video s) = true →
  ∃ s' before after,
    Render cast pose s =
      (Some (tt, s'),
       before ++
       depth_pass_calls (depth_frame_buffer_ s) (camera_projection s')
         (camera_view s') (Snapshot s) ++
       after).
Proof.
  intros Ha.
  unfold Render, ConvertYuvToRGBMat, BindRGBMatAsTexture, render, on_camera,
    on_drawable.
  run_op. rewrite Ha. run_op.
  destruct (CameraType_eqb _ _); run_op.
  - match goal with
    | |- context [(Some (tt, ?s1), ?L)] =>
        exists s1, (take 11 L), (drop 20 L)
    end. reflexivity.
  - match goal with
    | |- context [(Some (tt, ?s1), ?L)] =>
        exists s1, (take 13 L), (drop 22 L)
    end. reflexivity.
Qed.

(** C8, as the code has it.  When the completeness check fails,
    [InitGLContent] logs one line after the check and goes on: it ends in
    the scene a passed check ends in (nothing is returned, nothing records
    the failure, nothing is switched off), with the framebuffer it generated
    in [depth_frame_buffer_]; and every later [Render] of a scene that holds
    a frame runs the depth pass and the depth copy on
    [depth_frame_buffer_]. *)
Theorem InitGLContent_incomplete_logs_and_continues gl s :
  framebuffer_status gl ≠ GL_FRAMEBUFFER_COMPLETE →
  ∃ s',
    InitGLContent gl s =
      (Some (tt, s'),
       target_setup_calls gl ++
       [glCheckFramebufferStatus (framebuffer_status gl);
        LOGE "ERROR %d in fb %d " [gen_framebuffer gl]]) ∧
    InitGLContent (with_status GL_FRAMEBUFFER_COMPLETE gl) s =
      (Some (tt, s'),
       target_setup_calls gl ++
       [glCheckFramebufferStatus GL_FRAMEBUFFER_COMPLETE]) ∧
    depth_frame_buffer_ s' = gen_framebuffer gl ∧
    ∀ cast pose s1,
      is_yuv_texture_available_ (video s1) = true →
      ∃ s2 before after,
        Render cast pose s1 =
          (Some (tt, s2),
           before ++
           depth_pass_calls (depth_frame_buffer_ s1) (camera_projection s2)
             (camera_view s2) (Snapshot s1) ++
           after).
Proof.
  intros Hstatus. destruct (InitGLContent_run gl s) as (s' & Hfb & Hrun).
  exists s'. split; [|split; [|split]].
  - rewrite <- (with_status_same gl) at 1. rewrite Hrun.
    destruct (Z.eqb_spec (framebuffer_status gl) GL_FRAMEBUFFER_COMPLETE);
      [contradiction|reflexivity].
  - rewrite Hrun. reflexivity.
  - exact Hfb.
  - intros cast pose s1. apply Render_runs_depth_pass.
Qed.

Lemma InitGLContent_incomplete_logs_and_continues_witness :
  ∃ s',
    InitGLContent (example_context GL_FRAMEBUFFER_UNSUPPORTED) unset_scene =
      (Some (tt, s'),
       target_setup_calls (example_context GL_FRAMEBUFFER_UNSUPPORTED) ++
       [glCheckFramebufferStatus GL_FRAMEBUFFER_UNSUPPORTED;
        LOGE "ERROR %d in fb %d " [1%Z]]) ∧
    InitGLContent (example_context GL_FRAMEBUFFER_COMPLETE) unset_scene =
      (Some (tt, s'),
       target_setup_calls (example_context GL_FRAMEBUFFER_UNSUPPORTED) ++
       [glCheckFramebufferStatus GL_FRAMEBUFFER_COMPLETE]).
Proof.
  destruct (InitGLContent_incomplete_logs_and_continues
              (example_context GL_FRAMEBUFFER_UNSUPPORTED) unset_scene)
    as (s' & H1 & H2 & _).
  - vm_compute. discriminate.
  - exists s'. split; [exact H1|exact H2].
Defined.

(** C8 as stated does not hold.  With the status
    [GL_FRAMEBUFFER_UNSUPPORTED], [InitGLContent] ends in the scene it ends
    in with a complete framebuffer; once a frame is delivered, [Render]
    binds the incomplete framebuffer 1, draws the point cloud into it, copies
    its depth to the main framebuffer and draws the cube. *)
Lemma incomplete_framebuffer_does_not_stop_compositing :
  final_state (InitGLContent (example_context GL_FRAMEBUFFER_UNSUPPORTED)
                 unset_scene)
  = final_state (InitGLContent (example_context GL_FRAMEBUFFER_COMPLETE)
                   unset_scene) ∧
  let s1 :=
    state_after (OnFrameAvailable stale_storage frame_4x2)
      (state_after (InitGLContent (example_context GL_FRAMEBUFFER_UNSUPPORTED))
         unset_scene) in
  let composition := calls (Render low_byte_cast mat4_identity s1) in
  is_yuv_texture_available_ (video s1) = true ∧
  length composition = 25 ∧
  composition !! 13 = Some (glBindFramebuffer GL_FRAMEBUFFER 1) ∧
  composition !! 16 =
    Some (PointCloudRender
            (GetProjectionMatrix (gesture_camera_ (drawables s1)))
            (GetViewMatrix (gesture_camera_ (drawables s1)))
            mat4_identity []) ∧
  composition !! 20 =
    Some (glBlitFramebuffer 0 0 1280 720 0 0 1280 720
            GL_DEPTH_BUFFER_BIT GL_NEAREST) ∧
  ∃ cube, composition !! 24 =
            Some (DrawableRender cube_node cube
                    (GivenMatrix mat4_identity)
                    (GetViewMatrix (gesture_camera_ (drawables s1)))).
Proof.
  split.
  - destruct (InitGLContent_run (example_context GL_FRAMEBUFFER_COMPLETE)
                unset_scene) as (s' & _ & Hrun).
    change (example_context GL_FRAMEBUFFER_UNSUPPORTED)
      with (with_status GL_FRAMEBUFFER_UNSUPPORTED
              (example_context GL_FRAMEBUFFER_COMPLETE)).
    change (example_context GL_FRAMEBUFFER_COMPLETE)
      with (with_status GL_FRAMEBUFFER_COMPLETE
              (example_context GL_FRAMEBUFFER_COMPLETE)) at 2.
    rewrite !Hrun. reflexivity.
  - vm_compute. repeat split. eexists. reflexivity.
Qed.

(** ** The whole image of a conversion *)

Lemma rows_lookup {A : Type} (f : nat → nat → A) h w i j :
  i < h → j < w →
  flat_map (λ i, f i <$> seq 0 w) (seq 0 h) !! (i * w + j) = Some (f i j).
Proof.
  intros Hi Hj. induction h as [|h IH]; [lia|].
  rewrite seq_S, flat_map_app. cbn [flat_map Nat.add]. rewrite app_nil_r.
  assert (Hlen : ∀ n, length (flat_map (λ i, f i <$> seq 0 w) (seq 0 n)) = n * w).
  { clear. induction n as [|n IH]; [reflexivity|].
    rewrite seq_S, flat_map_app, length_app, IH. cbn [flat_map Nat.add].
    rewrite app_nil_r, length_fmap, length_seq. lia. }
  destruct (decide (i = h)) as [->|Hne].
  - rewrite lookup_app_r by (rewrite Hlen; lia).
    rewrite Hlen, list_lookup_fmap.
    replace (h * w + j - h * w) with j by lia.
    rewrite lookup_seq_lt by lia. reflexivity.
  - rewrite lookup_app_l by (rewrite Hlen; nia). apply IH. lia.
Qed.

Lemma rows_length {A : Type} (f : nat → nat → A) h w :
  length (flat_map (λ i, f i <$> seq 0 w) (seq 0 h)) = h * w.
Proof.
  induction h as [|h IH]; [reflexivity|].
  rewrite seq_S, flat_map_app, length_app, IH. cbn [flat_map Nat.add].
  rewrite app_nil_r, length_fmap, length_seq. lia.
Qed.

(** On a latched store the loops of the conversion overwrite every pixel:
    what the image held before does not show in the result. *)
Lemma convert_frame_image cast w h v :
  latched_to w h v →
  pixels (rgb_frame (convert_frame cast v)) = image_of cast w h (yuv_buffer_ v).
Proof.
  intros L.
  pose proof (latched_to_convert_frame cast _ _ _ L) as L'.
  destruct (latched_to_image _ _ _ L) as [Hc Hlen].
  destruct L as (_ & Hw & Hh & Ho & _ & _ & _ & _ & _ & Hcols & _).
  destruct L' as (_ & _ & _ & _ & _ & _ & _ & _ & _ & Hcols' & Hpix').
  apply list_eq. intros k.
  destruct (decide (k < h * w)) as [Hk|Hk].
  - assert (Hw0 : w ≠ 0) by lia.
    pose proof (Nat.div_mod_eq k w) as Hdm.
    pose proof (Nat.mod_upper_bound k w Hw0) as Hm.
    assert (Hi : k / w < h).
    { apply Nat.Div0.div_lt_upper_bound. lia. }
    replace k with (k / w * w + k mod w) at 1 2 by lia.
    unfold image_of. rewrite rows_lookup by assumption.
    pose proof (convert_frame_pixel cast v (k / w) (k mod w) Hc Hlen) as Hp.
    rewrite Hh, Hw in Hp. specialize (Hp Hi Hm).
    unfold Mat_at in Hp. rewrite Hcols' in Hp. rewrite Hp.
    unfold rgb_dot. rewrite Hw, Ho. reflexivity.
  - rewrite !(lookup_ge_None_2 _ k); [reflexivity| |].
    + unfold image_of. rewrite rows_length. lia.
    + rewrite Hpix'. lia.
Qed.

Lemma x_index_pair j : x_index j = 2 * (j / 2).
Proof.
  pose proof (Nat.div_mod_eq j 2) as Hdm.
  pose proof (Nat.mod_upper_bound j 2 ltac:(lia)) as Hm.
  destruct (decide (j mod 2 = 0)) as [H0|H1].
  - rewrite x_index_even by assumption. lia.
  - rewrite x_index_odd by lia. lia.
Qed.

(** On a store allocated for [w] by [h] pixels, [ConvertYuvToRGBMat]
    ends with the slot a pending frame was stored in as the active slot (the
    active slot as it was when nothing is pending), and with an image that
    is a function of that slot alone: every pixel is overwritten, row by
    row, by [Yuv2Rgb] of the bytes of the frame, whatever the image held
    before.  The allocation is as it was. *)
Theorem ConvertYuvToRGBMat_writes_whole_image cast w h s :
  latched_to w h (video s) →
  ∃ s',
    ConvertYuvToRGBMat cast s = (Some (tt, s'), []) ∧
    latched_to w h (video s') ∧
    yuv_buffer_ (video s') =
      (if swap_buffer_signal_ (video s) then yuv_temp_buffer_ (video s)
       else yuv_buffer_ (video s)) ∧
    pixels (rgb_frame (video s')) = image_of cast w h (yuv_buffer_ (video s')).
Proof.
  intros L. rewrite ConvertYuvToRGBMat_run. eexists. split; [reflexivity|].
  cbn [with_video video].
  pose proof (latched_to_swap_buffers _ _ _ L) as L1.
  split; [apply latched_to_convert_frame; exact L1|]. split.
  - rewrite convert_frame_writes. cbn [set_rgb_frame yuv_buffer_].
    unfold swap_buffers. destruct (swap_buffer_signal_ (video s)); reflexivity.
  - rewrite (convert_frame_image cast w h) by exact L1.
    rewrite convert_frame_writes. reflexivity.
Qed.

Lemma ConvertYuvToRGBMat_writes_whole_image_witness :
  latched_to 4 2 (video delivered_scene) ∧
  ∃ s',
    ConvertYuvToRGBMat low_byte_cast delivered_scene = (Some (tt, s'), []) ∧
    latched_to 4 2 (video s') ∧
    yuv_buffer_ (video s') =
      (if swap_buffer_signal_ (video delivered_scene)
       then yuv_temp_buffer_ (video delivered_scene)
       else yuv_buffer_ (video delivered_scene)) ∧
    pixels (rgb_frame (video s')) =
      image_of low_byte_cast 4 2 (yuv_buffer_ (video s')).
Proof.
  assert (L : latched_to 4 2 (video delivered_scene))
    by (vm_compute; repeat split).
  split; [exact L|].
  apply (ConvertYuvToRGBMat_writes_whole_image low_byte_cast 4 2
           delivered_scene L).
Defined.

(** In the image [ConvertYuvToRGBMat] produces, the chroma pair of
    the pixel in row [i] and column [j] is the pair of row [i / 2] and
    column [j / 2] of the chroma plane (V at [w * h + (i / 2) * w +
    2 * (j / 2)], U next to it): the four pixels of a block of two rows and
    two columns are computed from one chroma pair, each with its own luma
    byte. *)
Theorem block_shares_chroma_pair cast w h s i j :
  latched_to w h (video s) → i < h → j < w →
  ∃ s',
    ConvertYuvToRGBMat cast s = (Some (tt, s'), []) ∧
    Mat_at (rgb_frame (video s')) i j =
      Some (Yuv2Rgb cast
              (read (yuv_buffer_ (video s')) (i * w + j))
              (read (yuv_buffer_ (video s'))
                 (w * h + (i / 2) * w + 2 * (j / 2) + 1))
              (read (yuv_buffer_ (video s'))
                 (w * h + (i / 2) * w + 2 * (j / 2)))).
Proof.
  intros L Hi Hj. rewrite ConvertYuvToRGBMat_run. eexists.
  split; [reflexivity|]. cbn [with_video video].
  rewrite (converted_from_active_slot cast w h) by assumption.
  rewrite x_index_pair, convert_frame_writes. reflexivity.
Qed.

Lemma block_shares_chroma_pair_witness :
  latched_to 4 2 (video delivered_scene) ∧ 1 < 2 ∧ 3 < 4 ∧
  ∃ s',
    ConvertYuvToRGBMat low_byte_cast delivered_scene = (Some (tt, s'), []) ∧
    Mat_at (rgb_frame (video s')) 1 3 =
      Some (Yuv2Rgb low_byte_cast
              (read (yuv_buffer_ (video s')) (1 * 4 + 3))
              (read (yuv_buffer_ (video s'))
                 (4 * 2 + (1 / 2) * 4 + 2 * (3 / 2) + 1))
              (read (yuv_buffer_ (video s'))
                 (4 * 2 + (1 / 2) * 4 + 2 * (3 / 2)))).
Proof.
  assert (L : latched_to 4 2 (video delivered_scene))
    by (vm_compute; repeat split).
  split; [exact L|]. split; [lia|]. split; [lia|].
  apply (block_shares_chroma_pair low_byte_cast 4 2 delivered_scene 1 3 L);
    lia.
Defined.

(** ** Delivery, conversion and upload together *)

(** What [Render] does first on a scene that holds a frame: it converts the
    active slot and uploads the image to the texture of the video quad.
    Nothing else of the video store changes in the pass. *)
Lemma Render_upload cast pose s :
  is_yuv_texture_available_ (video s) = true →
  ∃ s' rest,
    Render cast pose s =
      (Some (tt, s'),
       glBindTexture GL_TEXTURE_2D (texture_id (yuv_drawable_ (drawables s))) ::
       glTexImage2D GL_RGB
         (cols (rgb_frame (convert_frame cast (swap_buffers (video s)))))
         (rows (rgb_frame (convert_frame cast (swap_buffers (video s)))))
         GL_UNSIGNED_BYTE
         (Some (pixels (rgb_frame (convert_frame cast (swap_buffers (video s)))))) ::
       rest) ∧
    video s' = convert_frame cast (swap_buffers (video s)).
Proof.
  intros Ha.
  unfold Render, ConvertYuvToRGBMat, BindRGBMatAsTexture, render, on_camera,
    on_drawable.
  run_op. rewrite Ha. run_op.
  destruct (CameraType_eqb _ _); run_op;
    (eexists; eexists; split; [reflexivity|reflexivity]).
Qed.

(** The first frame delivered to a scene whose video quad has a
    texture is the picture of the next [Render]: the delivery latches the
    size of the frame, allocates for it and uploads the image as allocated,
    nothing written to it yet (what the block held, [storage]); the
    [Render] that follows swaps the frame in and uploads, to the same
    texture and with the same size, the image of the first
    [w * h + w * h / 2] bytes of the frame, in which nothing of [storage]
    is left. *)
Theorem first_frame_is_on_screen_at_next_Render storage cast buffer pose s :
  texture_id (yuv_drawable_ (drawables s)) ≠ 0%Z →
  format buffer = TANGO_HAL_PIXEL_FORMAT_YCrCb_420_SP →
  is_yuv_texture_available_ (video s) = false →
  width buffer * height buffer + width buffer * height buffer / 2
    ≤ length (data buffer) →
  ∃ s1 s2 rest,
    OnFrameAvailable storage buffer s =
      (Some (tt, s1),
       [LOGE "%d %d" [Z.of_nat (width buffer); Z.of_nat (height buffer)];
        glBindTexture GL_TEXTURE_2D (texture_id (yuv_drawable_ (drawables s)));
        glTexImage2D GL_RGB (width buffer) (height buffer) GL_UNSIGNED_BYTE
          (Some (storage <$> seq 0 (height buffer * width buffer)))]) ∧
    Render cast pose s1 =
      (Some (tt, s2),
       glBindTexture GL_TEXTURE_2D (texture_id (yuv_drawable_ (drawables s))) ::
       glTexImage2D GL_RGB (width buffer) (height buffer) GL_UNSIGNED_BYTE
         (Some (image_of cast (width buffer) (height buffer)
                  (take (width buffer * height buffer
                         + width buffer * height buffer / 2)
                     (data buffer)))) ::
       rest) ∧
    latched_to (width buffer) (height buffer) (video s2).
Proof.
  intros Ht Hf Ha Hlen.
  set (w := width buffer) in *. set (h := height buffer) in *.
  set (size := w * h + w * h / 2) in *.
  pose proof (latched_to_first storage w h (video s)) as L0.
  assert (Hm : memcpy (yuv_temp_buffer_
                         (reserve_buffers storage (latch_size w h (video s))))
                 (data buffer) size = Some (take size (data buffer))).
  { apply memcpy_Some; [exact Hlen|].
    cbn [reserve_buffers latch_size yuv_temp_buffer_ yuv_size_].
    apply length_resize. }
  pose proof (OnFrameAvailable_first storage buffer s _ Ht Hf Ha Hm) as H1.
  fold w h in H1.
  match type of H1 with _ = (Some (tt, ?x), _) => set (s1 := x) in * end.
  assert (L1 : latched_to w h (video s1)).
  { subst s1. cbn [with_video video]. apply latched_to_store_pending.
    - exact L0.
    - rewrite length_take. fold size. lia. }
  assert (Ha1 : is_yuv_texture_available_ (video s1) = true) by apply L1.
  destruct (Render_upload cast pose s1 Ha1) as (s2 & rest & H2 & Hv2).
  exists s1, s2, rest. split; [exact H1|].
  pose proof (latched_to_swap_buffers _ _ _ L1) as L2.
  pose proof (latched_to_convert_frame cast _ _ _ L2) as L3.
  split; [|rewrite Hv2; exact L3].
  rewrite H2. rewrite (convert_frame_image cast w h) by exact L2.
  destruct L3 as (_ & _ & _ & _ & _ & _ & _ & _ & -> & -> & _).
  assert (Hy : yuv_buffer_ (swap_buffers (video s1)) = take size (data buffer))
    by reflexivity.
  rewrite Hy. reflexivity.
Qed.

Lemma first_frame_is_on_screen_at_next_Render_witness :
  ∃ s1 s2 rest,
    OnFrameAvailable stale_storage frame_4x2 ready_scene =
      (Some (tt, s1),
       [LOGE "%d %d" [4%Z; 2%Z];
        glBindTexture GL_TEXTURE_2D 2;
        glTexImage2D GL_RGB 4 2 GL_UNSIGNED_BYTE
          (Some [(0, 174, 52); (1, 174, 52); (2, 174, 52); (3, 174, 52);
                 (4, 174, 52); (5, 174, 52); (6, 174, 52); (7, 174, 52)]%Z)]) ∧
    Render low_byte_cast mat4_identity s1 =
      (Some (tt, s2),
       glBindTexture GL_TEXTURE_2D 2 ::
       glTexImage2D GL_RGB 4 2 GL_UNSIGNED_BYTE
         (Some (image_of low_byte_cast 4 2 (data frame_4x2))) ::
       rest) ∧
    latched_to 4 2 (video s2).
Proof.
  apply (first_frame_is_on_screen_at_next_Render stale_storage low_byte_cast
           frame_4x2
           mat4_identity ready_scene).
  - vm_compute. discriminate.
  - reflexivity.
  - reflexivity.
  - vm_compute. lia.
Defined.

(** A delivery to an allocated store, whatever the guards decide. *)
Lemma OnFrameAvailable_latched storage w h buffer s :
  latched_to w h (video s) →
  (format buffer = TANGO_HAL_PIXEL_FORMAT_YCrCb_420_SP →
   w * h + w * h / 2 ≤ length (data buffer)) →
  ∃ s' t,
    OnFrameAvailable storage buffer s = (Some (tt, s'), t) ∧
    latched_to w h (video s').
Proof.
  intros L Hlen.
  destruct (Z.eqb_spec (texture_id (yuv_drawable_ (drawables s))) 0) as [Ht|Ht].
  - unfold OnFrameAvailable. run_op. rewrite Ht. cbn [Z.eqb]. run_op.
    eexists _, _. split; [reflexivity|exact L].
  - destruct (Z.eqb_spec (format buffer) TANGO_HAL_PIXEL_FORMAT_YCrCb_420_SP)
      as [Hf|Hf].
    + rewrite (OnFrameAvailable_later storage) by (try assumption; apply L).
      destruct L as (Ha & Hw & Hh & Ho & Hs & Hb & Hp & Hrest).
      rewrite memcpy_Some by (rewrite ?Hs, ?Hp; auto).
      eexists _, _. split; [reflexivity|]. cbn [with_video video].
      apply latched_to_store_pending.
      * repeat (split; [assumption|]). exact Hrest.
      * rewrite length_take, Hs. specialize (Hlen Hf). lia.
    + unfold OnFrameAvailable. run_op.
      destruct (Z.eqb_spec (texture_id (yuv_drawable_ (drawables s))) 0);
        [contradiction|].
      destruct (Z.eqb_spec (format buffer) TANGO_HAL_PIXEL_FORMAT_YCrCb_420_SP);
        [contradiction|].
      run_op. eexists _, _. split; [reflexivity|exact L].
Qed.

(** A frame that is delivered and not converted before the next
    delivery leaves no trace: on an allocated store, delivering [A], then
    [B], then converting ends in the very state, with the very calls, of
    delivering [B] and converting.  The image is the image of the first
    [yuv_size_] bytes of [B], and the pending slot holds what was the active
    slot before. *)
Theorem frame_not_converted_in_time_is_dropped
    storageA storageB cast w h s A B :
  latched_to w h (video s) →
  texture_id (yuv_drawable_ (drawables s)) ≠ 0%Z →
  format A = TANGO_HAL_PIXEL_FORMAT_YCrCb_420_SP →
  format B = TANGO_HAL_PIXEL_FORMAT_YCrCb_420_SP →
  w * h + w * h / 2 ≤ length (data A) →
  w * h + w * h / 2 ≤ length (data B) →
  ∃ s',
    (OnFrameAvailable storageA A ;; OnFrameAvailable storageB B ;;
     ConvertYuvToRGBMat cast) s
      = (Some (tt, s'), []) ∧
    (OnFrameAvailable storageB B ;; ConvertYuvToRGBMat cast) s
      = (Some (tt, s'), []) ∧
    yuv_buffer_ (video s') = take (w * h + w * h / 2) (data B) ∧
    yuv_temp_buffer_ (video s') = yuv_buffer_ (video s) ∧
    pixels (rgb_frame (video s')) =
      image_of cast w h (take (w * h + w * h / 2) (data B)).
Proof.
  intros L Ht HfA HfB HlA HlB.
  set (size := w * h + w * h / 2) in *.
  assert (Ha : is_yuv_texture_available_ (video s) = true) by apply L.
  assert (Hs : yuv_size_ (video s) = size) by apply L.
  assert (Hp : length (yuv_temp_buffer_ (video s)) = size) by apply L.
  pose proof (OnFrameAvailable_later storageA A s Ht HfA Ha) as HA.
  rewrite Hs, memcpy_Some in HA by assumption.
  pose proof (OnFrameAvailable_later storageB B s Ht HfB Ha) as HB.
  rewrite Hs, memcpy_Some in HB by assumption.
  set (sA := with_video (store_pending (take size (data A))) s) in *.
  set (sB := with_video (store_pending (take size (data B))) s) in *.
  assert (HAB : OnFrameAvailable storageB B sA = (Some (tt, sB), [])).
  { rewrite OnFrameAvailable_later by (try assumption; reflexivity).
    subst sA. cbn [with_video video store_pending yuv_size_ yuv_temp_buffer_].
    rewrite Hs, memcpy_Some; [reflexivity|assumption|].
    rewrite length_take. lia. }
  assert (LB : latched_to w h (video sB)).
  { subst sB. cbn [with_video video]. apply latched_to_store_pending;
      [exact L|]. rewrite length_take. lia. }
  pose proof (ConvertYuvToRGBMat_run cast sB) as HC.
  match type of HC with _ = (Some (tt, ?x), _) => set (s' := x) in * end.
  exists s'. split; [|split; [|split; [|split]]].
  - change (OnFrameAvailable storageA A ;; OnFrameAvailable storageB B ;;
            ConvertYuvToRGBMat cast)
      with (OnFrameAvailable storageA A ≫= λ _,
              (OnFrameAvailable storageB B ≫= λ _, ConvertYuvToRGBMat cast)).
    apply (bind_run _ _ _ _ _ _ _ _ HA).
    apply (bind_run _ _ _ _ _ _ _ _ HAB HC).
  - apply (bind_run _ _ _ _ _ _ _ _ HB HC).
  - subst s'. cbn [with_video video]. rewrite convert_frame_writes. reflexivity.
  - subst s'. cbn [with_video video]. rewrite convert_frame_writes. reflexivity.
  - subst s'. cbn [with_video video].
    pose proof (latched_to_swap_buffers _ _ _ LB) as L2.
    rewrite (convert_frame_image cast w h) by exact L2. reflexivity.
Qed.

Lemma frame_not_converted_in_time_is_dropped_witness :
  ∃ s',
    (OnFrameAvailable stale_storage second_frame_4x2 ;;
     OnFrameAvailable stale_storage third_frame_4x2 ;;
     ConvertYuvToRGBMat low_byte_cast) delivered_scene
      = (Some (tt, s'), []) ∧
    (OnFrameAvailable stale_storage third_frame_4x2 ;;
     ConvertYuvToRGBMat low_byte_cast) delivered_scene
      = (Some (tt, s'), []) ∧
    yuv_buffer_ (video s') = take 12 (data third_frame_4x2) ∧
    yuv_temp_buffer_ (video s') = yuv_buffer_ (video delivered_scene) ∧
    pixels (rgb_frame (video s')) =
      image_of low_byte_cast 4 2 (take 12 (data third_frame_4x2)).
Proof.
  apply (frame_not_converted_in_time_is_dropped stale_storage stale_storage
           low_byte_cast 4 2
           delivered_scene second_frame_4x2 third_frame_4x2).
  - vm_compute. repeat split.
  - vm_compute. discriminate.
  - reflexivity.
  - reflexivity.
  - vm_compute. lia.
  - vm_compute. lia.
Defined.

(** ** The allocation over the life of a scene *)

Lemma SetCameraType_video mode s :
  ∃ s', SetCameraType mode s = (Some (tt, s'), []) ∧ video s' = video s.
Proof.
  unfold SetCameraType, on_camera, on_drawable. run_op.
  destruct mode; cbn [CameraType_eqb]; run_op;
    (eexists; split; reflexivity).
Qed.

Lemma SetupViewPort_video x y w h s :
  ∃ s' t, SetupViewPort x y w h s = (Some (tt, s'), t) ∧ video s' = video s.
Proof.
  unfold SetupViewPort, on_camera. run_op.
  destruct (h =? 0)%Z; run_op; (eexists _, _; split; reflexivity).
Qed.

Lemma InitGLContent_video gl s :
  ∃ s' t, InitGLContent gl s = (Some (tt, s'), t) ∧ video s' = video s.
Proof.
  unfold InitGLContent, set_drawable, on_camera, on_drawable. run_op.
  destruct (framebuffer_status gl =? GL_FRAMEBUFFER_COMPLETE)%Z; run_op;
    (eexists _, _; split; reflexivity).
Qed.

Lemma perform_latched cast w h c s :
  latched_to w h (video s) → carries (w * h + w * h / 2) c →
  ∃ s' t,
    perform cast c s = (Some (tt, s'), t) ∧ latched_to w h (video s').
Proof.
  intros L Hc. destruct c as [gl|x y vw vh|pose|mode|buffer|cloud];
    cbn [perform carries] in *.
  - destruct (InitGLContent_video gl s) as (s' & t & H & Hv).
    exists s', t. rewrite Hv. auto.
  - destruct (SetupViewPort_video x y vw vh s) as (s' & t & H & Hv).
    exists s', t. rewrite Hv. auto.
  - assert (Ha : is_yuv_texture_available_ (video s) = true) by apply L.
    destruct (Render_upload cast pose s Ha) as (s' & rest & H & Hv).
    eexists s', _. split; [exact H|]. rewrite Hv.
    apply latched_to_convert_frame, latched_to_swap_buffers, L.
  - destruct (SetCameraType_video mode s) as (s' & H & Hv).
    exists s', []. rewrite Hv. auto.
  - apply OnFrameAvailable_latched; assumption.
  - eexists _, _. split; [reflexivity|exact L].
Qed.

(** Once a frame has been accepted, no call changes the size the
    scene is allocated for.  From a scene allocated for [w] by [h] pixels,
    every sequence of calls of [InitGLContent], [SetupViewPort], [Render],
    [SetCameraType], [OnFrameAvailable] and [OnXYZijAvailable] in which the
    frames of the accepted format hold [w * h + w * h / 2] bytes at least
    runs to its end, and ends in a scene allocated for [w] by [h]: the
    latched width and height, the chroma offset, the number of bytes copied
    per frame, the lengths of both slots and the size of the image are as
    they were, whatever [width] and [height] the delivered frames
    announce. *)
Theorem allocation_is_kept_by_every_call cast w h cs s :
  latched_to w h (video s) →
  Forall (carries (w * h + w * h / 2)) cs →
  ∃ s' t,
    perform_all cast cs s = (Some (tt, s'), t) ∧ latched_to w h (video s').
Proof.
  intros L Hcs. revert s L.
  induction Hcs as [|c cs Hc Hcs IH]; intros s L.
  - exists s, []. split; [reflexivity|exact L].
  - destruct (perform_latched cast w h c s L Hc) as (s1 & t1 & H1 & L1).
    destruct (IH s1 L1) as (s2 & t2 & H2 & L2).
    exists s2, (t1 ++ t2). split; [|exact L2].
    change (perform_all cast (c :: cs))
      with (perform cast c ≫= λ _, perform_all cast cs).
    apply (bind_run _ _ _ _ _ _ _ _ H1 H2).
Qed.

Lemma allocation_is_kept_by_every_call_witness :
  ∃ s' t,
    perform_all low_byte_cast example_calls delivered_scene
      = (Some (tt, s'), t) ∧
    latched_to 4 2 (video s').
Proof.
  apply (allocation_is_kept_by_every_call low_byte_cast 4 2 example_calls
           delivered_scene).
  - vm_compute. repeat split.
  - unfold example_calls. repeat apply Forall_cons_2; try apply Forall_nil_2;
      cbn [carries]; try exact I; intros _; vm_compute; lia.
Defined.

(** ** The point cloud *)

Lemma flat_map_lookup_take {A B : Type} (g : A → list B) (d : A) (l : list A) n :
  n ≤ length l →
  flat_map (λ i, g (default d (l !! i))) (seq 0 n) = flat_map g (take n l).
Proof.
  intros Hn. rewrite <- (flat_map_lookup_seq g d (take n l)).
  rewrite length_take, Nat.min_l by exact Hn.
  rewrite !flat_map_concat_map. f_equal.
  apply map_ext_in. intros i Hi. apply in_seq in Hi.
  rewrite lookup_take_lt by lia. reflexivity.
Qed.

Lemma flat_map_scaled_point_length l :
  length (flat_map scaled_point l) = 3 * length l.
Proof.
  induction l as [|[[x y] z] l IH]; [reflexivity|].
  cbn [flat_map scaled_point]. rewrite length_app, IH. cbn [length]. lia.
Qed.

(** [OnXYZijAvailable] reads the first [xyz_count] points of the
    delivery and no other: when the array holds that many, the point list
    is replaced by three floats for each of them, in order, and the points
    behind the count do not show in it; with a count of 0 or less the list
    is emptied.  Nothing but the point list changes: the transformation the
    cloud is drawn with, the video store and the drawables are as they
    were, and nothing is logged or drawn. *)
Theorem OnXYZijAvailable_takes_counted_points XYZ_ij s :
  (xyz_count XYZ_ij ≤ Z.of_nat (length (xyz XYZ_ij)))%Z →
  ∃ s',
    OnXYZijAvailable XYZ_ij s = (Some (tt, s'), []) ∧
    vertices s' =
      flat_map scaled_point (take (Z.to_nat (xyz_count XYZ_ij)) (xyz XYZ_ij)) ∧
    length (vertices s') = 3 * Z.to_nat (xyz_count XYZ_ij) ∧
    ((xyz_count XYZ_ij ≤ 0)%Z → vertices s' = []) ∧
    point_cloud_transformation s' = point_cloud_transformation s ∧
    video s' = video s ∧
    drawables s' = drawables s.
Proof.
  intros Hc. eexists. split; [reflexivity|].
  cbn [set_vertices vertices point_cloud_transformation video drawables].
  assert (Hn : Z.to_nat (xyz_count XYZ_ij) ≤ length (xyz XYZ_ij)) by lia.
  rewrite for_loop_append, flat_map_lookup_take by exact Hn.
  split; [reflexivity|]. split; [|split; [|repeat split]].
  - rewrite flat_map_scaled_point_length, length_take. lia.
  - intros H0. replace (Z.to_nat (xyz_count XYZ_ij)) with 0 by lia.
    reflexivity.
Qed.

Lemma OnXYZijAvailable_takes_counted_points_witness :
  ∃ s',
    OnXYZijAvailable example_cloud ready_scene = (Some (tt, s'), []) ∧
    vertices s' = flat_map scaled_point [(1, 2, 3)%float] ∧
    length (vertices s') = 3 ∧
    ((1 ≤ 0)%Z → vertices s' = []) ∧
    point_cloud_transformation s' = point_cloud_transformation ready_scene ∧
    video s' = video ready_scene ∧
    drawables s' = drawables ready_scene.
Proof.
  apply (OnXYZijAvailable_takes_counted_points example_cloud ready_scene).
  vm_compute. discriminate.
Defined.

Lemma OnXYZijAvailable_prefix XYZ_ij s :
  (xyz_count XYZ_ij ≤ Z.of_nat (length (xyz XYZ_ij)))%Z →
  OnXYZijAvailable XYZ_ij s =
    (Some (tt,
       set_vertices
         (flat_map scaled_point
            (take (Z.to_nat (xyz_count XYZ_ij)) (xyz XYZ_ij))) s),
     []).
Proof.
  intros Hc. unfold OnXYZijAvailable.
  rewrite for_loop_append, flat_map_lookup_take by lia. reflexivity.
Qed.

(** The cloud a [Render] draws is the one of the last delivery: after
    [OnXYZijAvailable], the next [Render] of a scene that holds a frame draws
    the point cloud once, with the scaled points of that delivery and the
    transformation the scene had before it, through the projection and the
    view of the camera as the pass leaves it. *)
Theorem Render_draws_last_delivered_cloud cast XYZ_ij pose s :
  is_yuv_texture_available_ (video s) = true →
  (xyz_count XYZ_ij ≤ Z.of_nat (length (xyz XYZ_ij)))%Z →
  ∃ s1 s2 before after,
    OnXYZijAvailable XYZ_ij s = (Some (tt, s1), []) ∧
    Render cast pose s1 =
      (Some (tt, s2),
       before ++
       PointCloudRender (camera_projection s2) (camera_view s2)
         (point_cloud_transformation s)
         (flat_map scaled_point
            (take (Z.to_nat (xyz_count XYZ_ij)) (xyz XYZ_ij))) ::
       after) ∧
    existsb is_PointCloudRender (before ++ after) = false.
Proof.
  intros Ha Hc. rewrite (OnXYZijAvailable_prefix _ _ Hc).
  set (points := flat_map scaled_point _).
  assert (HR : ∃ s2 before after,
    Render cast pose (set_vertices points s) =
      (Some (tt, s2),
       before ++
       PointCloudRender (camera_projection s2) (camera_view s2)
         (point_cloud_transformation s) points :: after) ∧
    existsb is_PointCloudRender (before ++ after) = false).
  { unfold Render, ConvertYuvToRGBMat, BindRGBMatAsTexture, render, on_camera,
      on_drawable.
    run_op. cbn [set_vertices video]. rewrite Ha. run_op.
    cbn [set_vertices drawables gesture_camera_].
    destruct (CameraType_eqb _ _); run_op.
    - match goal with
      | |- context [(Some (tt, ?s1), ?L)] =>
          exists s1, (take 14 L), (drop 15 L)
      end. split; reflexivity.
    - match goal with
      | |- context [(Some (tt, ?s1), ?L)] =>
          exists s1, (take 16 L), (drop 17 L)
      end. split; reflexivity. }
  destruct HR as (s2 & before & after & HR & Hno).
  exists (set_vertices points s), s2, before, after.
  split; [reflexivity|]. split; assumption.
Qed.

Lemma Render_draws_last_delivered_cloud_witness :
  ∃ s1 s2 before after,
    OnXYZijAvailable example_cloud delivered_scene = (Some (tt, s1), []) ∧
    Render low_byte_cast mat4_identity s1 =
      (Some (tt, s2),
       before ++
       PointCloudRender (camera_projection s2) (camera_view s2)
         (point_cloud_transformation delivered_scene)
         (flat_map scaled_point [(1, 2, 3)%float]) ::
       after) ∧
    existsb is_PointCloudRender (before ++ after) = false.
Proof.
  apply (Render_draws_last_delivered_cloud low_byte_cast example_cloud
           mat4_identity delivered_scene).
  - reflexivity.
  - vm_compute. discriminate.
Defined.

(** ** Camera modes *)

(** A mode change overwrites everything an earlier mode change wrote. *)
Lemma SetCameraType_absorbs mode1 mode2 s :
  ∃ s1,
    SetCameraType mode1 s = (Some (tt, s1), []) ∧
    SetCameraType mode2 s1 = SetCameraType mode2 s.
Proof.
  unfold SetCameraType, on_camera, on_drawable. run_op.
  destruct mode1, mode2; cbn [CameraType_eqb]; run_op;
    (eexists; split; reflexivity).
Qed.

Lemma SetCameraTypes_absorbed modes mode s :
  ∃ s1,
    SetCameraTypes modes s = (Some (tt, s1), []) ∧
    SetCameraType mode s1 = SetCameraType mode s.
Proof.
  revert s. induction modes as [|m modes IH]; intros s.
  - exists s. split; reflexivity.
  - destruct (SetCameraType_absorbs m mode s) as (s1 & H1 & E1).
    destruct (IH s1) as (s2 & H2 & E2).
    exists s2. split; [|rewrite E2; exact E1].
    change (SetCameraTypes (m :: modes))
      with (SetCameraType m ≫= λ _, SetCameraTypes modes).
    apply (bind_run _ _ _ _ _ _ _ _ H1 H2).
Qed.

(** Of a sequence of mode changes only the last one shows: serving
    any requests and then [SetCameraType(mode)] ends in the very scene that
    [SetCameraType(mode)] alone ends in.  In that scene the camera is in
    mode [mode], and the depth quad has no parent, scale 0.3f, position
    (0.6f, -0.6f, 0) and the identity rotation, in every mode. *)
Theorem SetCameraType_last_request_decides modes mode s :
  ∃ s',
    (SetCameraTypes modes ;; SetCameraType mode) s = (Some (tt, s'), []) ∧
    SetCameraType mode s = (Some (tt, s'), []) ∧
    camera_type (gesture_camera_ (drawables s')) = mode ∧
    parent (depth_drawable_ (drawables s')) = None ∧
    scale (depth_drawable_ (drawables s')) =
      (float_lit 0.3, float_lit 0.3, float_lit 0.3)%float ∧
    position (depth_drawable_ (drawables s')) =
      (float_lit 0.6, float_neg (float_lit 0.6), 0)%float ∧
    rotation (depth_drawable_ (drawables s')) =
      {| qw := 1; qx := 0; qy := 0; qz := 0 |}%float.
Proof.
  destruct (SetCameraTypes_absorbed modes mode s) as (s1 & H1 & E).
  assert (H : ∃ s',
    SetCameraType mode s = (Some (tt, s'), []) ∧
    camera_type (gesture_camera_ (drawables s')) = mode ∧
    parent (depth_drawable_ (drawables s')) = None ∧
    scale (depth_drawable_ (drawables s')) =
      (float_lit 0.3, float_lit 0.3, float_lit 0.3)%float ∧
    position (depth_drawable_ (drawables s')) =
      (float_lit 0.6, float_neg (float_lit 0.6), 0)%float ∧
    rotation (depth_drawable_ (drawables s')) =
      {| qw := 1; qx := 0; qy := 0; qz := 0 |}%float).
  { unfold SetCameraType, on_camera, on_drawable. run_op.
    destruct mode; cbn [CameraType_eqb]; run_op;
      (eexists; split; [reflexivity|]; repeat split; reflexivity). }
  destruct H as (s' & H2 & Hrest). exists s'.
  split; [|split; [exact H2|exact Hrest]].
  rewrite <- E in H2. apply (bind_run _ _ _ _ _ _ _ _ H1 H2).
Qed.

(** What a pass draws, by the mode of the camera. *)
Lemma Render_first_person cast pose s :
  is_yuv_texture_available_ (video s) = true →
  camera_type (gesture_camera_ (drawables s)) = kFirstPerson →
  ∃ s2 t,
    Render cast pose s = (Some (tt, s2), t) ∧
    drawn_nodes t = [yuv_node; depth_node; grid_node; cube_node] ∧
    In (DrawableRender yuv_node (yuv_drawable_ (drawables s))
          (GivenMatrix mat4_identity) (GivenMatrix mat4_identity)) t ∧
    camera_transformation (gesture_camera_ (drawables s2)) = Some pose.
Proof.
  intros Ha Hm.
  unfold Render, ConvertYuvToRGBMat, BindRGBMatAsTexture, render, on_camera,
    on_drawable.
  run_op. rewrite Ha. run_op.
  cbn [with_video drawables]. rewrite Hm. cbn [CameraType_eqb]. run_op.
  eexists _, _. split; [reflexivity|]. split; [reflexivity|].
  split; [do 7 right; left; reflexivity|reflexivity].
Qed.

Lemma Render_following cast pose s :
  is_yuv_texture_available_ (video s) = true →
  camera_type (gesture_camera_ (drawables s)) ≠ kFirstPerson →
  ∃ s2 t,
    Render cast pose s = (Some (tt, s2), t) ∧
    drawn_nodes t =
      [frustum_node; axis_node; trace_node; yuv_node; depth_node; grid_node;
       cube_node] ∧
    In (DrawableRender yuv_node (yuv_drawable_ (drawables s))
          (GivenMatrix (ar_camera_projection_matrix_ s))
          (GetViewMatrix (gesture_camera_ (drawables s2)))) t ∧
    transformation (axis_ (drawables s2)) = Some pose ∧
    transformation (frustum_ (drawables s2)) = Some pose ∧
    scale (frustum_ (drawables s2)) =
      (float_lit 1, camera_image_plane_ratio_ s, image_plane_distance_ s) ∧
    anchor_position (gesture_camera_ (drawables s2)) =
      (mat4_at pose 3 0, mat4_at pose 3 1, mat4_at pose 3 2) ∧
    camera_transformation (gesture_camera_ (drawables s2)) =
      camera_transformation (gesture_camera_ (drawables s)).
Proof.
  intros Ha Hm.
  unfold Render, ConvertYuvToRGBMat, BindRGBMatAsTexture, render, on_camera,
    on_drawable.
  run_op. rewrite Ha. run_op.
  cbn [with_video drawables].
  destruct (camera_type (gesture_camera_ (drawables s))) eqn:E;
    [contradiction| |]; cbn [CameraType_eqb]; run_op;
    (eexists _, _; split; [reflexivity|]; split; [reflexivity|];
     split; [do 9 right; left; reflexivity|]; repeat split; reflexivity).
Qed.

Lemma SetCameraType_first_person_scene s :
  ∃ s1,
    SetCameraType kFirstPerson s = (Some (tt, s1), []) ∧
    video s1 = video s ∧
    camera_type (gesture_camera_ (drawables s1)) = kFirstPerson ∧
    parent (yuv_drawable_ (drawables s1)) = None ∧
    scale (yuv_drawable_ (drawables s1)) = (1, 1, 1)%float ∧
    position (yuv_drawable_ (drawables s1)) = (0, 0, 0)%float.
Proof.
  unfold SetCameraType, on_camera, on_drawable. run_op.
  cbn [CameraType_eqb]. run_op. eexists. split; [reflexivity|].
  repeat split; reflexivity.
Qed.

Lemma SetCameraType_following_scene mode s :
  mode ≠ kFirstPerson →
  ∃ s1,
    SetCameraType mode s = (Some (tt, s1), []) ∧
    video s1 = video s ∧
    camera_type (gesture_camera_ (drawables s1)) = mode ∧
    parent (yuv_drawable_ (drawables s1)) = Some axis_node ∧
    position (yuv_drawable_ (drawables s1)) =
      (0, 0, float_neg (image_plane_distance_ s))%float ∧
    ar_camera_projection_matrix_ s1 = ar_camera_projection_matrix_ s ∧
    camera_image_plane_ratio_ s1 = camera_image_plane_ratio_ s ∧
    image_plane_distance_ s1 = image_plane_distance_ s ∧
    camera_transformation (gesture_camera_ (drawables s1)) =
      camera_transformation (gesture_camera_ (drawables s)).
Proof.
  intros Hmode. unfold SetCameraType, on_camera, on_drawable. run_op.
  destruct mode; [contradiction| |]; cbn [CameraType_eqb]; run_op;
    (eexists; split; [reflexivity|]; repeat split; reflexivity).
Qed.

(** In first-person mode the video fills the screen and the camera
    is the device: a [Render] that follows [SetCameraType(kFirstPerson)] on
    a scene that holds a frame hands the pose to the camera as its
    transformation and draws, in this order, the video quad, the depth quad,
    the grid and the cube; neither the frustum, nor the axis, nor the trace
    is drawn.  The video quad is drawn with the identity matrix as
    projection and as view, and it has no parent, scale (1, 1, 1) and
    position (0, 0, 0). *)
Theorem first_person_Render_draws_video_full_screen cast pose s :
  is_yuv_texture_available_ (video s) = true →
  ∃ s1 s2 t,
    SetCameraType kFirstPerson s = (Some (tt, s1), []) ∧
    Render cast pose s1 = (Some (tt, s2), t) ∧
    drawn_nodes t = [yuv_node; depth_node; grid_node; cube_node] ∧
    In (DrawableRender yuv_node (yuv_drawable_ (drawables s1))
          (GivenMatrix mat4_identity) (GivenMatrix mat4_identity)) t ∧
    parent (yuv_drawable_ (drawables s1)) = None ∧
    scale (yuv_drawable_ (drawables s1)) = (1, 1, 1)%float ∧
    position (yuv_drawable_ (drawables s1)) = (0, 0, 0)%float ∧
    camera_transformation (gesture_camera_ (drawables s2)) = Some pose.
Proof.
  intros Ha.
  destruct (SetCameraType_first_person_scene s)
    as (s1 & H1 & Hv & Hm & Hp & Hs & Hpos).
  rewrite <- Hv in Ha.
  destruct (Render_first_person cast pose s1 Ha Hm)
    as (s2 & t & H2 & Hn & Hin & Hc).
  exists s1, s2, t. repeat (split; [assumption|]). assumption.
Qed.

Lemma first_person_Render_draws_video_full_screen_witness :
  ∃ s1 s2 t,
    SetCameraType kFirstPerson delivered_scene = (Some (tt, s1), []) ∧
    Render low_byte_cast example_pose s1 = (Some (tt, s2), t) ∧
    drawn_nodes t = [yuv_node; depth_node; grid_node; cube_node] ∧
    In (DrawableRender yuv_node (yuv_drawable_ (drawables s1))
          (GivenMatrix mat4_identity) (GivenMatrix mat4_identity)) t ∧
    parent (yuv_drawable_ (drawables s1)) = None ∧
    scale (yuv_drawable_ (drawables s1)) = (1, 1, 1)%float ∧
    position (yuv_drawable_ (drawables s1)) = (0, 0, 0)%float ∧
    camera_transformation (gesture_camera_ (drawables s2)) = Some example_pose.
Proof.
  apply (first_person_Render_draws_video_full_screen low_byte_cast
           example_pose delivered_scene).
  reflexivity.
Defined.

(** In the other modes the video follows the device: a [Render] that
    follows [SetCameraType(mode)], [mode] not first person, on a scene that
    holds a frame gives the pose to the frustum and to the axis, moves the
    anchor of the camera to the translation of the pose, and draws, in this
    order, the frustum, the axis, the trace, the video quad, the depth quad,
    the grid and the cube.  The video quad hangs under the axis, at the
    image-plane distance in front of it, and is drawn through the AR
    projection and the view of the camera; the transformation of the camera
    itself is not touched. *)
Theorem following_Render_hangs_video_on_the_pose cast mode pose s :
  mode ≠ kFirstPerson →
  is_yuv_texture_available_ (video s) = true →
  ∃ s1 s2 t,
    SetCameraType mode s = (Some (tt, s1), []) ∧
    Render cast pose s1 = (Some (tt, s2), t) ∧
    drawn_nodes t =
      [frustum_node; axis_node; trace_node; yuv_node; depth_node; grid_node;
       cube_node] ∧
    In (DrawableRender yuv_node (yuv_drawable_ (drawables s1))
          (GivenMatrix (ar_camera_projection_matrix_ s))
          (GetViewMatrix (gesture_camera_ (drawables s2)))) t ∧
    parent (yuv_drawable_ (drawables s1)) = Some axis_node ∧
    position (yuv_drawable_ (drawables s1)) =
      (0, 0, float_neg (image_plane_distance_ s))%float ∧
    transformation (axis_ (drawables s2)) = Some pose ∧
    transformation (frustum_ (drawables s2)) = Some pose ∧
    scale (frustum_ (drawables s2)) =
      (1, camera_image_plane_ratio_ s, image_plane_distance_ s)%float ∧
    anchor_position (gesture_camera_ (drawables s2)) =
      (mat4_at pose 3 0, mat4_at pose 3 1, mat4_at pose 3 2) ∧
    camera_transformation (gesture_camera_ (drawables s2)) =
      camera_transformation (gesture_camera_ (drawables s)).
Proof.
  intros Hmode Ha.
  destruct (SetCameraType_following_scene mode s Hmode)
    as (s1 & H1 & Hv & Hm & Hp & Hpos & Har & Hr & Hd & Hc).
  rewrite <- Hv in Ha.
  assert (Hm1 : camera_type (gesture_camera_ (drawables s1)) ≠ kFirstPerson)
    by (rewrite Hm; exact Hmode).
  destruct (Render_following cast pose s1 Ha Hm1)
    as (s2 & t & H2 & Hn & Hin & Hax & Hfr & Hsc & Han & Hct).
  rewrite Har in Hin. rewrite Hr, Hd in Hsc. rewrite Hc in Hct.
  exists s1, s2, t.
  split; [exact H1|]. split; [exact H2|]. split; [exact Hn|].
  split; [exact Hin|]. split; [exact Hp|]. split; [exact Hpos|].
  split; [exact Hax|]. split; [exact Hfr|]. split; [exact Hsc|].
  split; [exact Han|exact Hct].
Qed.

Lemma following_Render_hangs_video_on_the_pose_witness :
  ∃ s1 s2 t,
    SetCameraType kTopDown delivered_scene = (Some (tt, s1), []) ∧
    Render low_byte_cast example_pose s1 = (Some (tt, s2), t) ∧
    drawn_nodes t =
      [frustum_node; axis_node; trace_node; yuv_node; depth_node; grid_node;
       cube_node] ∧
    In (DrawableRender yuv_node (yuv_drawable_ (drawables s1))
          (GivenMatrix mat4_identity)
          (GetViewMatrix (gesture_camera_ (drawables s2)))) t ∧
    parent (yuv_drawable_ (drawables s1)) = Some axis_node ∧
    position (yuv_drawable_ (drawables s1)) = (0, 0, -1)%float ∧
    transformation (axis_ (drawables s2)) = Some example_pose ∧
    transformation (frustum_ (drawables s2)) = Some example_pose ∧
    scale (frustum_ (drawables s2)) = (1, 0.75, 1)%float ∧
    anchor_position (gesture_camera_ (drawables s2)) = (1, 2, 3)%float ∧
    camera_transformation (gesture_camera_ (drawables s2)) = None.
Proof.
  apply (following_Render_hangs_video_on_the_pose low_byte_cast kTopDown
           example_pose delivered_scene).
  - discriminate.
  - reflexivity.
Defined.

(** ** A scene without a texture *)

Lemma perform_without_texture cast c s :
  is_InitGLContent c = false →
  texture_id (yuv_drawable_ (drawables s)) = 0%Z →
  is_yuv_texture_available_ (video s) = false →
  ∃ s' t,
    perform cast c s = (Some (tt, s'), t) ∧
    forallb draws_nothing t = true ∧
    texture_id (yuv_drawable_ (drawables s')) = 0%Z ∧
    video s' = video s.
Proof.
  intros Hc Ht Ha.
  destruct c as [gl|x y vw vh|pose|mode|buffer|cloud]; cbn [perform].
  - discriminate Hc.
  - unfold SetupViewPort, on_camera. run_op.
    destruct (vh =? 0)%Z; run_op;
      (eexists _, _; split; [reflexivity|]; repeat split; assumption).
  - unfold Render. run_op. rewrite Ha. run_op.
    eexists _, _. split; [reflexivity|]. repeat split; assumption.
  - unfold SetCameraType, on_camera, on_drawable. run_op.
    destruct mode; cbn [CameraType_eqb]; run_op;
      (eexists _, _; split; [reflexivity|]; repeat split; assumption).
  - unfold OnFrameAvailable. run_op. rewrite Ht. cbn [Z.eqb]. run_op.
    eexists _, _. split; [reflexivity|]. repeat split; assumption.
  - eexists _, _. split; [reflexivity|]. repeat split; assumption.
Qed.

(** A scene whose video quad has no texture (id 0) and that holds no
    frame stays so, and draws nothing, until [InitGLContent] is called:
    every sequence of [SetupViewPort], [Render], [SetCameraType],
    [OnFrameAvailable] and [OnXYZijAvailable] calls runs to its end, every
    call it makes is a log line or [glViewport], and the video store at the
    end is the one of the start: every frame was refused, every [Render]
    returned at once. *)
Theorem nothing_is_drawn_without_a_texture cast cs s :
  existsb is_InitGLContent cs = false →
  texture_id (yuv_drawable_ (drawables s)) = 0%Z →
  is_yuv_texture_available_ (video s) = false →
  ∃ s' t,
    perform_all cast cs s = (Some (tt, s'), t) ∧
    forallb draws_nothing t = true ∧
    video s' = video s.
Proof.
  intros Hcs. revert s.
  induction cs as [|c cs IH]; intros s Ht Ha.
  - exists s, []. repeat split.
  - cbn [existsb] in Hcs. apply orb_false_iff in Hcs as [Hc Hcs].
    destruct (perform_without_texture cast c s Hc Ht Ha)
      as (s1 & t1 & H1 & Hd1 & Ht1 & Hv1).
    rewrite <- Hv1 in Ha.
    destruct (IH Hcs s1 Ht1 Ha) as (s2 & t2 & H2 & Hd2 & Hv2).
    exists s2, (t1 ++ t2). split; [|split].
    + change (perform_all cast (c :: cs))
        with (perform cast c ≫= λ _, perform_all cast cs).
      apply (bind_run _ _ _ _ _ _ _ _ H1 H2).
    + rewrite forallb_app, Hd1, Hd2. reflexivity.
    + rewrite Hv2. exact Hv1.
Qed.

Lemma nothing_is_drawn_without_a_texture_witness :
  ∃ s' t,
    perform_all low_byte_cast calls_without_texture unset_scene
      = (Some (tt, s'), t) ∧
    forallb draws_nothing t = true ∧
    video s' = video unset_scene.
Proof.
  apply (nothing_is_drawn_without_a_texture low_byte_cast
           calls_without_texture unset_scene); reflexivity.
Defined.

(** ** What a set-up and a pass leave alone *)

(** The scene [InitGLContent] ends in: what it installs is made of the
    answers of the constructors and of the driver alone. *)
Lemma InitGLContent_scene gl s :
  ∃ s',
    InitGLContent gl s =
      (Some (tt, s'),
       target_setup_calls gl ++
       glCheckFramebufferStatus (framebuffer_status gl) ::
       (if (framebuffer_status gl =? GL_FRAMEBUFFER_COMPLETE)%Z then []
        else [LOGE "ERROR %d in fb %d " [gen_framebuffer gl]])) ∧
    drawables s' =
      {| gesture_camera_ :=
           SetCameraType_camera kThirdPerson (new_GestureCamera gl);
         yuv_drawable_ := new_YUVDrawable gl;
         depth_drawable_ := new_DepthDrawable gl;
         axis_ := new_Axis gl;
         frustum_ := new_Frustum gl;
         trace_ := SetColor kTraceColor (new_Trace gl);
         grid_ :=
           SetPosition (vec3_neg kHeightOffset)
             (SetColor kGridColor (new_Grid gl));
         cube_ :=
           SetColor kCubeColor
             (SetRotation kCubeRotation
                (SetScale kCubeScale
                   (SetPosition kCubePosition (new_Cube gl))));
         point_cloud_drawable_ := new_PointCloudDrawable gl |} ∧
    depth_frame s' = Mat_create (depth_frame_storage gl) 1280 720 ∧
    depth_frame_buffer_ s' = gen_framebuffer gl ∧
    depth_frame_buffer_depth_texture_ s' = gen_texture gl ∧
    video s' = video s ∧
    Snapshot s' = Snapshot s.
Proof.
  unfold InitGLContent, set_drawable, on_camera, on_drawable. run_op.
  destruct (framebuffer_status gl =? GL_FRAMEBUFFER_COMPLETE)%Z; run_op;
    (eexists; split; [reflexivity|];
     split; [reflexivity|]; repeat split; reflexivity).
Qed.

(** [InitGLContent] replaces every collaborator and keeps the frames:
    the camera, the eight drawables, the depth image and the names of the
    auxiliary framebuffer and of its depth texture it ends with are those of
    the set-up alone, the same from whatever scene it starts, with the same
    calls; the video store, the point list and its transformation are those
    of the scene it started from.  The camera is in third-person mode, while
    the video quad is as constructed: placing it is left to
    [SetCameraType]. *)
Theorem InitGLContent_replaces_collaborators_keeps_frames gl s s0 :
  ∃ s' s0' t,
    InitGLContent gl s = (Some (tt, s'), t) ∧
    InitGLContent gl s0 = (Some (tt, s0'), t) ∧
    drawables s' = drawables s0' ∧
    depth_frame s' = depth_frame s0' ∧
    depth_frame_buffer_ s' = gen_framebuffer gl ∧
    depth_frame_buffer_depth_texture_ s' = gen_texture gl ∧
    video s' = video s ∧
    Snapshot s' = Snapshot s ∧
    camera_type (gesture_camera_ (drawables s')) = kThirdPerson ∧
    yuv_drawable_ (drawables s') = new_YUVDrawable gl.
Proof.
  destruct (InitGLContent_scene gl s)
    as (s' & H & Hd & Hf & Hfb & Htex & Hv & Hc).
  destruct (InitGLContent_scene gl s0) as (s0' & H0 & Hd0 & Hf0 & _).
  exists s', s0'. eexists. split; [exact H|]. split; [exact H0|].
  rewrite Hd, Hd0, Hf, Hf0. repeat split; assumption.
Qed.

(** What [Render] never writes: the point list and its transformation, the
    video quad, the depth quad, the grid, the cube and the point-cloud
    drawable, the mode and the aspect ratio of the camera, the names of the
    auxiliary framebuffer and of its depth texture, the image-plane
    parameters and the AR projection, and, of the video store, the latched
    size and the flag that a frame is held.  The frustum and the axis are
    handed the pose, and nothing is said of them here; the trace is changed
    through [UpdateVertexArray] only, which is one of the calls of the
    pass. *)
Theorem Render_leaves_alone cast pose s :
  ∃ s' t,
    Render cast pose s = (Some (tt, s'), t) ∧
    Snapshot s' = Snapshot s ∧
    (∀ n, n ≠ frustum_node → n ≠ axis_node →
          drawable n (drawables s') = drawable n (drawables s)) ∧
    camera_type (gesture_camera_ (drawables s')) =
      camera_type (gesture_camera_ (drawables s)) ∧
    aspect_ratio (gesture_camera_ (drawables s')) =
      aspect_ratio (gesture_camera_ (drawables s)) ∧
    depth_frame_buffer_ s' = depth_frame_buffer_ s ∧
    depth_frame_buffer_depth_texture_ s' = depth_frame_buffer_depth_texture_ s ∧
    camera_image_plane_ratio_ s' = camera_image_plane_ratio_ s ∧
    image_plane_distance_ s' = image_plane_distance_ s ∧
    ar_camera_projection_matrix_ s' = ar_camera_projection_matrix_ s ∧
    yuv_width_ (video s') = yuv_width_ (video s) ∧
    yuv_height_ (video s') = yuv_height_ (video s) ∧
    yuv_size_ (video s') = yuv_size_ (video s) ∧
    is_yuv_texture_available_ (video s') = is_yuv_texture_available_ (video s).
Proof.
  unfold Render, ConvertYuvToRGBMat, BindRGBMatAsTexture, render, on_camera,
    on_drawable.
  run_op. destruct (is_yuv_texture_available_ (video s)) eqn:Ha; run_op.
  - assert (Hswap : ∀ v,
      yuv_width_ (swap_buffers v) = yuv_width_ v ∧
      yuv_height_ (swap_buffers v) = yuv_height_ v ∧
      yuv_size_ (swap_buffers v) = yuv_size_ v ∧
      is_yuv_texture_available_ (swap_buffers v) = is_yuv_texture_available_ v).
    { intros v. unfold swap_buffers. destruct (swap_buffer_signal_ v);
        repeat split; reflexivity. }
    destruct (Hswap (video s)) as (Hw & Hh & Hs & Hav).
    destruct (CameraType_eqb _ _); run_op;
      (eexists _, _; split; [reflexivity|];
       cbn [with_drawables with_video video drawables Snapshot vertices
            point_cloud_transformation depth_frame_buffer_
            depth_frame_buffer_depth_texture_ camera_image_plane_ratio_
            image_plane_distance_ ar_camera_projection_matrix_];
       rewrite convert_frame_writes;
       cbn [set_rgb_frame yuv_width_ yuv_height_ yuv_size_
            is_yuv_texture_available_];
       rewrite Hw, Hh, Hs, Hav;
       split; [reflexivity|];
       split; [intros n Hf Hx; destruct n; try reflexivity; contradiction|];
       repeat split; try reflexivity; exact Ha).
  - exists s, []. split; [reflexivity|].
    split; [reflexivity|]. split; [reflexivity|].
    repeat split; try reflexivity; exact Ha.
Qed.
